(** * xpra: the QUIC / HTTP-3 websocket client and its connection object

    A shallow embedding of [xpra/net/quic/connection.py] and
    [xpra/net/quic/client.py], and of the outcomes the unit tests
    [server_auth_test.py] and [server_sockets_test.py] expect.

    Python objects are records, attribute assignment is explicit state
    passing in a small state monad whose outcome says whether the call
    returned, raised, or blocked.  Calls made on the aioquic HTTP
    connection, the [transmit] callable and [log.warn] are recorded, in
    order, in a list of calls: aioquic is not part of these sources, and
    what it does with a call (send it, or refuse it) is outside the model,
    every such call returns. Debug logging ([log(...)]) has no effect on
    the program and is left out. *)

From Stdlib Require Import ZArith NArith String Ascii List Bool Lia.
From stdpp Require Import base option list gmap strings pretty.
Import ListNotations.

Local Open Scope string_scope.
Local Open Scope Z_scope.
Local Open Scope list_scope.

(** ** Python values used by the two modules *)

(** A [bytes] object: a sequence of 8-bit characters. *)
Definition bytes := string.

(** [len(buf)] *)
Definition len (buf : bytes) : nat := String.length buf.

(** A [str] is kept in its UTF-8 form. *)
Definition str := string.

(** A value stored in a header dictionary: the source stores [str] values
    and the integers [13] and [code]. *)
Inductive hval : Type :=
| HStr (s : str)
| HInt (z : Z).

(** A [dict] with [str] keys, in insertion order. *)
Definition pydict := list (str * hval).

(** [d[k] = v]: replaces the value in place when the key is present,
    appends the item otherwise. *)
Fixpoint dict_set (k : str) (v : hval) (d : pydict) : pydict :=
  match d with
  | [] => [(k, v)]
  | (k', v') :: d' =>
      if String.eqb k k' then (k, v) :: d' else (k', v') :: dict_set k v d'
  end.

(** [d.update(other)] *)
Definition dict_update (d other : pydict) : pydict :=
  fold_left (fun acc kv => dict_set (fst kv) (snd kv) acc) other d.

(** *** [bytes.decode()] and [str.split(",")] *)

Definition in_range (c : ascii) (lo hi : N) : bool :=
  ((lo <=? N_of_ascii c) && (N_of_ascii c <=? hi))%N.

(** Well-formed UTF-8 byte sequences (Unicode, table 3-7): what the strict
    decoder of [bytes.decode()] accepts. *)
Fixpoint utf8_wellformed (b : bytes) : bool :=
  match b with
  | EmptyString => true
  | String c0 b1 =>
      if in_range c0 0 127 then utf8_wellformed b1
      else if in_range c0 194 223 then
        match b1 with
        | String c1 b2 => in_range c1 128 191 && utf8_wellformed b2
        | _ => false
        end
      else if in_range c0 224 239 then
        match b1 with
        | String c1 (String c2 b3) =>
            (if in_range c0 224 224 then in_range c1 160 191
             else if in_range c0 237 237 then in_range c1 128 159
             else in_range c1 128 191)
            && in_range c2 128 191 && utf8_wellformed b3
        | _ => false
        end
      else if in_range c0 240 244 then
        match b1 with
        | String c1 (String c2 (String c3 b4)) =>
            (if in_range c0 240 240 then in_range c1 144 191
             else if in_range c0 244 244 then in_range c1 128 143
             else in_range c1 128 191)
            && in_range c2 128 191 && in_range c3 128 191
            && utf8_wellformed b4
        | _ => false
        end
      else false
  end.

(** [value.decode()]: [None] stands for [UnicodeDecodeError]. The text is
    kept in its UTF-8 form. *)
Definition decode (value : bytes) : option str :=
  if utf8_wellformed value then Some value else None.

(** [s.split(",")]. No byte of a multi-byte UTF-8 sequence is below 128, so
    splitting the UTF-8 form at the comma byte splits the text at its
    commas. *)
Fixpoint split_comma (s : str) : list str :=
  match s with
  | EmptyString => [EmptyString]
  | String c s' =>
      if Ascii.eqb c "," then EmptyString :: split_comma s'
      else match split_comma s' with
           | h :: t => String c h :: t
           | [] => [String c EmptyString]
           end
  end.

(** ** Outcomes and the state monad *)

Inductive exn : Type :=
| AttributeError      (* [None.qsize()] *)
| UnicodeDecodeError  (* [value.decode()] on ill-formed UTF-8 *)
| NoSuchObject.       (* a reference to no object: no Python program has
                         one, see [with_object] *)

(** How a call ends: it returns a value, raises, or blocks (a [Queue.get()]
    on an empty queue). *)
Inductive outcome (A : Type) : Type :=
| Returned (a : A)
| Raised (e : exn)
| Blocked.
Arguments Returned {A} a.
Arguments Raised {A} e.
Arguments Blocked {A}.

(** A method over a state [S]: the assignments made before a [raise]
    persist, as in Python. *)
Definition M (S A : Type) : Type := S -> outcome A * S.

Definition ret {S A} (a : A) : M S A := fun s => (Returned a, s).

Definition bind {S A B} (m : M S A) (k : A -> M S B) : M S B :=
  fun s =>
    match m s with
    | (Returned a, s') => k a s'
    | (Raised e, s') => (Raised e, s')
    | (Blocked, s') => (Blocked, s')
    end.

Definition raise {S A} (e : exn) : M S A := fun s => (Raised e, s).
Definition block {S A} : M S A := fun s => (Blocked, s).
Definition get {S} : M S S := fun s => (Returned s, s).
Definition modify {S} (f : S -> S) : M S unit := fun s => (Returned tt, f s).

Notation "x <- m ;; k" := (bind m (fun x => k))
  (at level 100, m at next level, right associativity).
Notation "m ;;; k" := (bind m (fun _ => k))
  (at level 100, right associativity).

(** The state a call ends in, and how it ends. *)
Definition state_after {S A} (r : outcome A * S) : S := snd r.
Definition result_of {S A} (r : outcome A * S) : outcome A := fst r.

(** A call that raises. *)
Definition raises {A} (o : outcome A) : Prop := exists e, o = Raised e.

(** ** HTTP/3 events (aioquic.h3.events) *)

Inductive H3Event : Type :=
| HeadersReceived (headers : list (bytes * bytes)) (stream_id : Z)
                  (stream_ended : bool)
| DataReceived (data : bytes) (stream_id : Z) (stream_ended : bool)
| PushPromiseReceived (headers : list (bytes * bytes)) (push_id : Z)
                      (stream_id : Z)
| DatagramReceived (data : bytes) (flow_id : Z).

(** The stream an event names, if it names one. *)
Definition event_stream_id (event : H3Event) : option Z :=
  match event with
  | HeadersReceived _ sid _ => Some sid
  | DataReceived _ sid _ => Some sid
  | PushPromiseReceived _ _ sid => Some sid
  | DatagramReceived _ _ => None
  end.

(** ** What the program does to the outside *)

Inductive warning : Type :=
| unhandled_websocket_http_event (event : H3Event)
| unsupported_websocket_subprotocols (subprotocols : list str)
| unexpected_websocket_stream_id (stream_id : Z)
| unexpected_http_event_type (event : H3Event).

Inductive call : Type :=
| send_headers_call (stream_id : Z) (headers : list (bytes * bytes))
                    (end_stream : bool)
| send_data_call (stream_id : Z) (data : bytes) (end_stream : bool)
| transmit_call
| log_warn (w : warning).

(** ** Names imported from modules that are not part of these sources *)

Class Imports : Type := {
  (** [xpra.net.quic.common.USER_AGENT] *)
  USER_AGENT : str;
  (** [xpra.net.quic.common.binary_headers] *)
  binary_headers : pydict -> list (bytes * bytes);
  (** [xpra.net.websockets.header.close_packet] *)
  close_packet : Z -> str -> bytes;
  (** [xpra.os_util.memoryview_to_bytes] *)
  memoryview_to_bytes : bytes -> bytes;
  (** [QuicConnection.get_next_available_stream_id], answered by aioquic
      from what has been sent on the connection so far *)
  get_next_available_stream_id : list call -> Z
}.

(** ** The connection object ([connection.py], [client.py]) *)

(** The class an object was made from: [self.write] and
    [self.http_event_received] dispatch on it. *)
Inductive klass : Type :=
| XpraQuicConnection
| ClientWebSocketConnection.

(** The attributes of a connection object. [write_buffer] exists on a
    [ClientWebSocketConnection] only: [Some q] is a [Queue] holding [q],
    [None] is Python's [None]. [released] belongs to the base class
    [Connection]. *)
Record connection : Type := mk_connection {
  class_of : klass;
  stream_id : Z;
  accepted : bool;
  closed : bool;
  read_queue : list bytes;
  write_buffer : option (list bytes);
  released : bool
}.

Definition set_accepted (v : bool) (o : connection) : connection :=
  mk_connection (class_of o) (stream_id o) v (closed o) (read_queue o)
                (write_buffer o) (released o).
Definition set_closed (v : bool) (o : connection) : connection :=
  mk_connection (class_of o) (stream_id o) (accepted o) v (read_queue o)
                (write_buffer o) (released o).
Definition set_read_queue (v : list bytes) (o : connection) : connection :=
  mk_connection (class_of o) (stream_id o) (accepted o) (closed o) v
                (write_buffer o) (released o).
Definition set_write_buffer (v : option (list bytes)) (o : connection)
  : connection :=
  mk_connection (class_of o) (stream_id o) (accepted o) (closed o)
                (read_queue o) v (released o).
Definition set_released (v : bool) (o : connection) : connection :=
  mk_connection (class_of o) (stream_id o) (accepted o) (closed o)
                (read_queue o) (write_buffer o) v.

(** [XpraQuicConnection.__init__] *)
Definition XpraQuicConnection_init (sid : Z) : connection :=
  mk_connection XpraQuicConnection sid false false [] None false.

(** [ClientWebSocketConnection.__init__]: the base initialiser, then
    [self.write_buffer = Queue()]. *)
Definition ClientWebSocketConnection_init (sid : Z) : connection :=
  mk_connection ClientWebSocketConnection sid false false [] (Some [])
                false.

(** A method runs on an object together with the calls made so far on the
    HTTP connection the object was given. *)
Record frame : Type := mk_frame {
  self : connection;
  calls : list call
}.

Definition attr {A} (f : connection -> A) : M frame A :=
  fun s => (Returned (f (self s)), s).
Definition assign (f : connection -> connection) : M frame unit :=
  modify (fun s => mk_frame (f (self s)) (calls s)).
Definition emit (c : call) : M frame unit :=
  modify (fun s => mk_frame (self s) (calls s ++ [c])).

(** Modelled from the spec: [Connection.close] of [xpra.net.bytestreams],
    the base class, which is not among the sources. Section 4.1 gives its
    contract: idempotent, it releases the underlying transport resource
    and marks the connection closed. *)
Definition Connection_close : M frame unit :=
  assign (set_released true) ;;; assign (set_closed true).

Section Quic.
Context `{Imports}.

(** *** [connection.py] *)

Definition XpraQuicConnection_send_headers (headers : pydict)
  : M frame unit :=
  sid <- attr stream_id ;;
  end_stream <- attr closed ;;
  emit (send_headers_call sid (binary_headers headers) end_stream).

Definition XpraQuicConnection_write (buf : bytes) : M frame nat :=
  let data := memoryview_to_bytes buf in
  sid <- attr stream_id ;;
  end_stream <- attr closed ;;
  emit (send_data_call sid data end_stream) ;;;
  emit transmit_call ;;;
  ret (len buf).

(** [self.read_queue.get()] *)
Definition XpraQuicConnection_read (n : Z) : M frame bytes :=
  q <- attr read_queue ;;
  match q with
  | [] => block
  | chunk :: rest => assign (set_read_queue rest) ;;; ret chunk
  end.

Definition XpraQuicConnection_http_event_received (event : H3Event)
  : M frame unit :=
  c <- attr closed ;;
  if c then ret tt
  else match event with
       | DataReceived data _ _ =>
           q <- attr read_queue ;;
           assign (set_read_queue (q ++ [data]))
       | _ => emit (log_warn (unhandled_websocket_http_event event))
       end.

(** *** [client.py]: [ClientWebSocketConnection] *)

(** The loop of [flush_writes]: while the queue holds something, take the
    oldest buffer and send it. *)
Fixpoint flush_writes_loop (q : list bytes) : M frame unit :=
  match q with
  | [] => ret tt
  | buf :: rest =>
      assign (set_write_buffer (Some rest)) ;;;
      sid <- attr stream_id ;;
      emit (send_data_call sid (memoryview_to_bytes buf) false) ;;;
      flush_writes_loop rest
  end.

Definition ClientWebSocketConnection_flush_writes : M frame unit :=
  wb <- attr write_buffer ;;
  match wb with
  | None => raise AttributeError
  | Some q =>
      flush_writes_loop q ;;;
      emit transmit_call ;;;
      assign (set_write_buffer None)
  end.

Definition ClientWebSocketConnection_write (buf : bytes) : M frame nat :=
  wb <- attr write_buffer ;;
  match wb with
  | Some q => assign (set_write_buffer (Some (q ++ [buf]))) ;;; ret (len buf)
  | None => XpraQuicConnection_write buf
  end.

(** [self.write(buf)] *)
Definition write (buf : bytes) : M frame nat :=
  k <- attr class_of ;;
  match k with
  | XpraQuicConnection => XpraQuicConnection_write buf
  | ClientWebSocketConnection => ClientWebSocketConnection_write buf
  end.

(** *** [connection.py], continued: closing *)

Definition XpraQuicConnection_send_close (code : Z) (reason : str)
  : M frame unit :=
  assign (set_closed true) ;;;
  a <- attr accepted ;;
  if a then
    let data := close_packet code reason in
    write data ;;; ret tt
  else
    XpraQuicConnection_send_headers [(":status", HInt code)] ;;;
    emit transmit_call.

Definition XpraQuicConnection_close : M frame unit :=
  c <- attr closed ;;
  (if negb c then XpraQuicConnection_send_close 1000 "" else ret tt) ;;;
  Connection_close.

(** *** [client.py]: the response headers *)

(** The [for header, value in event.headers] loop. The [return] after
    [self.close()] leaves the loop. *)
Fixpoint headers_loop (headers : list (bytes * bytes)) : M frame unit :=
  match headers with
  | [] => ret tt
  | (header, value) :: rest =>
      if String.eqb header "sec-websocket-protocol" then
        match decode value with
        | None => raise UnicodeDecodeError
        | Some text =>
            let subprotocols := split_comma text in
            if negb (bool_decide ("xpra" ∈ subprotocols)) then
              emit (log_warn (unsupported_websocket_subprotocols
                                subprotocols)) ;;;
              XpraQuicConnection_close
            else
              assign (set_accepted true) ;;;
              ClientWebSocketConnection_flush_writes ;;;
              headers_loop rest
        end
      else headers_loop rest
  end.

Definition ClientWebSocketConnection_http_event_received (event : H3Event)
  : M frame unit :=
  match event with
  | HeadersReceived headers _ _ => headers_loop headers
  | _ => XpraQuicConnection_http_event_received event
  end.

(** [self.http_event_received(event)] *)
Definition http_event_received (event : H3Event) : M frame unit :=
  k <- attr class_of ;;
  match k with
  | XpraQuicConnection => XpraQuicConnection_http_event_received event
  | ClientWebSocketConnection =>
      ClientWebSocketConnection_http_event_received event
  end.

(** *** [client.py]: [WebSocketClient] *)

(** The protocol object with the objects it has made. A reference to a
    connection object is its index in [heap]: [open] hands the same object
    to the caller and to [_websockets]. [wire] is what has been asked of
    [self._http], [self.transmit] and [log.warn], oldest first. *)
Record WebSocketClient : Type := mk_client {
  heap : list connection;
  _websockets : gmap Z nat;
  wire : list call
}.

(** [WebSocketClient.__init__]: [self._websockets = {}]. *)
Definition WebSocketClient_init : WebSocketClient := mk_client [] ∅ [].

(** A method call on the object behind a reference. *)
Definition with_object {A} (r : nat) (m : M frame A)
  : M WebSocketClient A :=
  fun w =>
    match heap w !! r with
    | Some o =>
        let res := m (mk_frame o (wire w)) in
        (fst res,
         mk_client (<[r := self (snd res)]> (heap w)) (_websockets w)
                   (calls (snd res)))
    | None => (Raised NoSuchObject, w)
    end.

Definition WS_HEADERS : pydict :=
  [ (":method", HStr "CONNECT");
    (":scheme", HStr "https");
    (":protocol", HStr "websocket");
    ("sec-websocket-version", HInt 13);
    ("sec-websocket-protocol", HStr "xpra");
    ("user-agent", HStr USER_AGENT) ].

Definition WebSocketClient_open (host : str) (port : Z) (path : str)
  : M WebSocketClient nat :=
  w <- get ;;
  let stream_id := get_next_available_stream_id (wire w) in
  let websocket := length (heap w) in
  modify (fun w => mk_client (heap w ++ [ClientWebSocketConnection_init
                                           stream_id])
                             (_websockets w) (wire w)) ;;;
  modify (fun w => mk_client (heap w)
                             (<[stream_id := websocket]> (_websockets w))
                             (wire w)) ;;;
  let headers :=
    dict_update [(":authority", HStr host); (":path", HStr path)]
                WS_HEADERS in
  modify (fun w => mk_client (heap w) (_websockets w)
                     (wire w ++ [send_headers_call stream_id
                                   (binary_headers headers) false])) ;;;
  modify (fun w => mk_client (heap w) (_websockets w)
                             (wire w ++ [transmit_call])) ;;;
  ret websocket.

Definition WebSocketClient_http_event_received (event : H3Event)
  : M WebSocketClient unit :=
  match event with
  | HeadersReceived _ stream_id _ | DataReceived _ stream_id _ =>
      w <- get ;;
      match _websockets w !! stream_id with
      | Some websocket => with_object websocket (http_event_received event)
      | None =>
          modify (fun w => mk_client (heap w) (_websockets w)
                     (wire w ++ [log_warn (unexpected_websocket_stream_id
                                             stream_id)]))
      end
  | _ =>
      modify (fun w => mk_client (heap w) (_websockets w)
                 (wire w ++ [log_warn (unexpected_http_event_type event)]))
  end.

(** [quic_event_received], given the events [self._http.handle_event]
    made of the QUIC event. *)
Fixpoint WebSocketClient_quic_event_received (http_events : list H3Event)
  : M WebSocketClient unit :=
  match http_events with
  | [] => ret tt
  | http_event :: rest =>
      WebSocketClient_http_event_received http_event ;;;
      WebSocketClient_quic_event_received rest
  end.

(** *** What a holder of a connection object may call

    [flush_writes] is not among the operations: the sources call it from
    [http_event_received] only. *)

Inductive op : Type :=
| op_write (buf : bytes)
| op_read (n : Z)
| op_close
| op_send_close (code : Z) (reason : str)
| op_http_event_received (event : H3Event).

(** The state an operation leaves, however it ends. *)
Definition exec (f : frame) (o : op) : frame :=
  match o with
  | op_write buf => state_after (write buf f)
  | op_read n => state_after (XpraQuicConnection_read n f)
  | op_close => state_after (XpraQuicConnection_close f)
  | op_send_close code reason =>
      state_after (XpraQuicConnection_send_close code reason f)
  | op_http_event_received event =>
      state_after (http_event_received event f)
  end.

Definition run (ops : list op) (f : frame) : frame := fold_left exec ops f.

End Quic.

(** ** Admission: authentication and TLS verification

    The server's authentication backends and the TLS handshake are not
    among the sources; [server_auth_test.py] and [server_sockets_test.py]
    only run them and compare exit codes. *)

(** Result codes ([xpra.exit_codes], as the tests import them). *)
Inductive ResultCode : Type :=
| EXIT_OK
| EXIT_CONNECTION_FAILED
| EXIT_AUTHENTICATION_FAILED
| EXIT_PASSWORD_REQUIRED
| EXIT_NO_AUTHENTICATION
| EXIT_SSL_CERTIFICATE_VERIFY_FAILURE.

#[global] Instance ResultCode_eq_dec : EqDecision ResultCode.
Proof. solve_decision. Defined.

(** Modelled from the spec: the closed set of verification outcomes
    (section 3). *)
Inductive VerificationResult : Type :=
| Ok
| PasswordRequired
| AuthenticationFailed
| NoAuthenticationConfigured.

(** Modelled from the spec: a [multifile] credential record (section 3);
    an empty display list means unrestricted. *)
Record credential_record : Type := mk_record {
  username : str;
  password : str;
  uid : Z;
  gid : Z;
  displays : list str
}.

(** Modelled from the spec: the verifier backends (sections 3 and 4.3).
    [None] for [file] and [multifile] is a backend without a readable
    credential file. *)
Inductive AuthenticationBackend : Type :=
| auth_none
| auth_allow
| auth_reject
| auth_fail
| auth_file (secret : option str)
| auth_multifile (records : option (list credential_record)).

(** Modelled from the spec: the TLS verify modes and what a listener
    presents (sections 3, 4.2 and 6). *)
Inductive VerifyMode : Type :=
| verify_none
| verify_peer
| verify_required.

Inductive certificate_chain : Type :=
| self_signed
| untrusted_chain
| trusted_chain.

(** What the peer sends and claims in one attempt. *)
Record attempt : Type := mk_attempt {
  salt : bytes;
  claimed_username : str;
  display : str;
  supplied_secret : option str
}.

Section Admission.

(** The digest of the declared mechanism, over secret and salt. *)
Variable digest : str -> bytes -> bytes.
(** The spec does not say whether mode [peer] makes a verification failure
    fatal. *)
Variable peer_is_fatal : bool.

(** Modelled from the spec: section 4.3, step 4. *)
Definition peer_response (a : attempt) : option bytes :=
  match supplied_secret a with
  | Some secret => Some (digest secret (salt a))
  | None => None
  end.

Definition compare_digest (stored : str) (a : attempt) (response : bytes)
  : VerificationResult :=
  if String.eqb response (digest stored (salt a)) then Ok
  else AuthenticationFailed.

Definition display_allowed (r : credential_record) (d : str) : bool :=
  match displays r with
  | [] => true
  | ds => existsb (String.eqb d) ds
  end.

(** Modelled from the spec: section 4.3, step 5. Backend [fail] refuses
    before any challenge: nothing is verified. *)
Definition verify (backend : AuthenticationBackend) (a : attempt)
  : option VerificationResult :=
  match backend, peer_response a with
  | auth_fail, _ => None
  | auth_none, Some _ => Some NoAuthenticationConfigured
  | auth_none, None => Some Ok
  | auth_allow, Some _ => Some Ok
  | auth_allow, None => Some PasswordRequired
  | auth_reject, _ => Some PasswordRequired
  | auth_file None, _ => Some PasswordRequired
  | auth_file (Some _), None => Some PasswordRequired
  | auth_file (Some stored), Some response =>
      Some (compare_digest stored a response)
  | auth_multifile None, _ => Some PasswordRequired
  | auth_multifile (Some records), response =>
      match find (fun r => String.eqb (username r) (claimed_username a))
                 records with
      | None => Some PasswordRequired
      | Some r =>
          if display_allowed r (display a) then
            match response with
            | None => Some PasswordRequired
            | Some response => Some (compare_digest (password r) a response)
            end
          else Some PasswordRequired
      end
  end.

(** Modelled from the spec: the result-code table of section 6. *)
Definition result_code (v : VerificationResult) : ResultCode :=
  match v with
  | Ok => EXIT_OK
  | PasswordRequired => EXIT_PASSWORD_REQUIRED
  | AuthenticationFailed => EXIT_AUTHENTICATION_FAILED
  | NoAuthenticationConfigured => EXIT_NO_AUTHENTICATION
  end.

(** Modelled from the spec: section 4.3, steps 2 and 6. Backend [fail]
    tears the connection down before any challenge, which the peer sees
    as a connection failure. *)
Definition authenticate (backend : AuthenticationBackend) (a : attempt)
  : ResultCode :=
  match verify backend a with
  | None => EXIT_CONNECTION_FAILED
  | Some v => result_code v
  end.

Definition chain_verifies (c : certificate_chain) : bool :=
  match c with
  | trusted_chain => true
  | _ => false
  end.

Definition verification_is_fatal (mode : VerifyMode) : bool :=
  match mode with
  | verify_none => false
  | verify_peer => peer_is_fatal
  | verify_required => true
  end.

(** Modelled from the spec: a connection over TLS (sections 2, 6 and 7):
    the handshake comes first, authentication runs on the connection it
    yields. *)
Definition tls_connect (mode : VerifyMode) (c : certificate_chain)
           (backend : AuthenticationBackend) (a : attempt) : ResultCode :=
  if verification_is_fatal mode && negb (chain_verifies c)
  then EXIT_SSL_CERTIFICATE_VERIFY_FAILURE
  else authenticate backend a.

End Admission.

(** [ServerAuthTest.test_none]: the two calls of [_test_auth], as backend,
    password and expected exit code. *)
Definition test_none : list (AuthenticationBackend * option str * ResultCode) :=
  [ (auth_none, None, EXIT_OK);
    (auth_none, Some "foo", EXIT_NO_AUTHENTICATION) ].

(** [_test_auth]: the client is given the password, if any, as the secret
    its challenge handler answers with; the test passes when the exit code
    is the expected one. *)
Definition _test_auth (digest : str -> bytes -> bytes) (challenge : bytes)
           (user disp : str)
           (t : AuthenticationBackend * option str * ResultCode) : bool :=
  let '(auth, pw, exit_code) := t in
  bool_decide (authenticate digest auth
                 (mk_attempt challenge user disp pw) = exit_code).

(** ** Notions the statements below use *)


(** No header of the list is named [sec-websocket-protocol]. *)
Definition no_subprotocol_header (headers : list (bytes * bytes)) : Prop :=
  Forall (fun hv => String.eqb (fst hv) "sec-websocket-protocol" = false)
         headers.

(** The [send_data] calls that put a queue on a stream, oldest first. *)
Definition flushed `{Imports} (sid : Z) (q : list bytes) : list call :=
  map (fun buf => send_data_call sid (memoryview_to_bytes buf) false) q.

(** Class, stream, acceptance and write buffer are the same in both. *)
Definition same_buffering (o o' : connection) : Prop :=
  class_of o' = class_of o /\ stream_id o' = stream_id o /\
  accepted o' = accepted o /\ write_buffer o' = write_buffer o.

(** On a client connection the buffer is gone exactly when the stream has
    been accepted. *)
Definition consistent (o : connection) : Prop :=
  class_of o = ClientWebSocketConnection /\
  (accepted o = true <-> write_buffer o = None).

(** *** Stand-ins for the imported names, to run the model on examples *)

(** [str(v).encode()] for the values the sources store. *)
Definition encode_hval (v : hval) : bytes :=
  match v with
  | HStr s => s
  | HInt z => pretty z
  end.

(** A close frame without mask: opcode byte, payload length, the code on
    two bytes, the reason. *)
Definition example_close_packet (code : Z) (reason : str) : bytes :=
  String (ascii_of_N 136)
    (String (ascii_of_N (N.of_nat (2 + String.length reason)))
       (String (ascii_of_N (Z.to_N (code / 256)))
          (String (ascii_of_N (Z.to_N (code mod 256))) reason))).

(** Client-initiated bidirectional streams are numbered 0, 4, 8, ...; a
    stream exists once headers have been sent on it. *)
Definition example_next_stream_id (sent : list call) : Z :=
  4 * Z.of_nat (length (List.filter (fun c => match c with
                                          | send_headers_call _ _ false => true
                                          | _ => false
                                          end) sent)).

Definition example_imports : Imports := {|
  USER_AGENT := "xpra/5.0";
  binary_headers := map (fun kv => (fst kv, encode_hval (snd kv)));
  close_packet := example_close_packet;
  memoryview_to_bytes := fun buf => buf;
  get_next_available_stream_id := example_next_stream_id
|}.

(** A stand-in for the digest of the declared mechanism. *)
Definition example_digest (secret : str) (challenge : bytes) : bytes :=
  (secret ++ challenge)%string.

(** ** Further notions: reading, and the protocol object in use *)

(** One [read] per element of [sizes], for as long as the reads return:
    the chunks read, oldest first, and the state left. *)
Fixpoint read_all (sizes : list Z) (f : frame) : list bytes * frame :=
  match sizes with
  | [] => ([], f)
  | n :: sizes' =>
      match XpraQuicConnection_read n f with
      | (Returned chunk, f') =>
          (chunk :: fst (read_all sizes' f'), snd (read_all sizes' f'))
      | (_, f') => ([], f')
      end
  end.

(** The [DataReceived] events that carry the given chunks. *)
Definition data_events (chunks : list (bytes * Z * bool)) : list op :=
  map (fun d => op_http_event_received
                  (DataReceived (fst (fst d)) (snd (fst d)) (snd d)))
      chunks.

(** Class and stream are the same in [o']; a flag set in [o] is set in
    [o']. *)
Definition grows (o o' : connection) : Prop :=
  class_of o' = class_of o /\ stream_id o' = stream_id o /\
  (accepted o = true -> accepted o' = true) /\
  (closed o = true -> closed o' = true).

(** A call that names a stream names this one. *)
Definition on_stream (sid : Z) (c : call) : Prop :=
  match c with
  | send_headers_call s _ _ => s = sid
  | send_data_call s _ _ => s = sid
  | _ => True
  end.

Definition is_send_data (c : call) : bool :=
  match c with
  | send_data_call _ _ _ => true
  | _ => false
  end.

(** The calls an operation adds are on the stream of the object, and there
    is no [send_data] among them as long as the stream is not accepted. *)
Definition emits (f f' : frame) : Prop :=
  exists emitted,
    calls f' = calls f ++ emitted /\
    Forall (on_stream (stream_id (self f))) emitted /\
    (accepted (self f') = false ->
     class_of (self f) = ClientWebSocketConnection ->
     write_buffer (self f) <> None ->
     Forall (fun c => is_send_data c = false) emitted).

(** The warning the protocol object logs for an event it has no stream
    for. *)
Definition warning_for (event : H3Event) : warning :=
  match event with
  | HeadersReceived _ sid _ => unexpected_websocket_stream_id sid
  | DataReceived _ sid _ => unexpected_websocket_stream_id sid
  | _ => unexpected_http_event_type event
  end.

(** The event is not for a stream of the map. *)
Definition unrouted (w : WebSocketClient) (event : H3Event) : Prop :=
  match event with
  | HeadersReceived _ sid _ => _websockets w !! sid = None
  | DataReceived _ sid _ => _websockets w !! sid = None
  | _ => True
  end.

Section QuicInUse.
Context `{Imports}.

(** An operation as a method call whose value is dropped. *)
Definition perform (o : op) : M frame unit :=
  match o with
  | op_write buf => write buf ;;; ret tt
  | op_read n => XpraQuicConnection_read n ;;; ret tt
  | op_close => XpraQuicConnection_close
  | op_send_close code reason => XpraQuicConnection_send_close code reason
  | op_http_event_received event => http_event_received event
  end.

(** What happens to a protocol object: [open] is called, aioquic delivers
    events, and whoever holds a connection object calls its methods. *)
Inductive wop : Type :=
| w_open (host : str) (port : Z) (path : str)
| w_http_event_received (event : H3Event)
| w_quic_event_received (http_events : list H3Event)
| w_call (websocket : nat) (o : op).

Definition wexec (w : WebSocketClient) (o : wop) : WebSocketClient :=
  match o with
  | w_open host port path =>
      state_after (WebSocketClient_open host port path w)
  | w_http_event_received event =>
      state_after (WebSocketClient_http_event_received event w)
  | w_quic_event_received http_events =>
      state_after (WebSocketClient_quic_event_received http_events w)
  | w_call websocket o => state_after (with_object websocket (perform o) w)
  end.

Definition wrun (ops : list wop) (w : WebSocketClient) : WebSocketClient :=
  fold_left wexec ops w.

End QuicInUse.

(** Every entry of [_websockets] refers to an object of the heap, a
    consistent client connection made for the stream it is filed under. *)
Definition well_formed (w : WebSocketClient) : Prop :=
  forall sid r,
    _websockets w !! sid = Some r ->
    exists o, heap w !! r = Some o /\ consistent o /\ stream_id o = sid.

(** * Properties *)

(** ** The Python built-ins on examples *)

Example split_comma_like_python :
  split_comma "a,b,,c," = ["a"; "b"; ""; "c"; ""] /\
  split_comma "" = [""] /\
  split_comma "foo, xpra" = ["foo"; " xpra"].
Proof. repeat split. Qed.

Example decode_rejects_ill_formed :
  decode "xpra" = Some "xpra" /\
  decode (String (ascii_of_N 195) (String (ascii_of_N 169) ""))
    = Some (String (ascii_of_N 195) (String (ascii_of_N 169) "")) /\
  decode (String (ascii_of_N 255) "") = None /\
  decode (String (ascii_of_N 192) (String (ascii_of_N 128) "")) = None /\
  decode (String (ascii_of_N 237) (String (ascii_of_N 160)
                                     (String (ascii_of_N 128) ""))) = None.
Proof. repeat split. Qed.

Example dict_update_replaces_in_place :
  dict_update [("a", HInt 1); ("b", HInt 2)] [("b", HInt 3); ("c", HInt 4)]
    = [("a", HInt 1); ("b", HInt 3); ("c", HInt 4)].
Proof. reflexivity. Qed.

(** ** The connection object *)

Section QuicProperties.
Context `{Imports}.

(** Unfolds one method call down to the pairs it computes. *)
Ltac step_monad :=
  unfold bind, ret, raise, block, get, modify, attr, assign, emit,
    state_after, result_of in *; simpl in *.

Lemma app_cons_assoc {A} (l : list A) (x : A) (l' : list A) :
  (l ++ [x]) ++ l' = l ++ x :: l'.
Proof. by rewrite <- app_assoc. Qed.

(** The loop of [flush_writes] sends the queue in order and empties it. *)
Lemma flush_writes_loop_sends (q : list bytes) :
  forall f,
    flush_writes_loop q f =
      (Returned tt,
       mk_frame (match q with
                 | [] => self f
                 | _ => set_write_buffer (Some []) (self f)
                 end)
                (calls f ++ flushed (stream_id (self f)) q)).
Proof.
  induction q as [|buf rest IH]; intros [o c].
  - step_monad. by rewrite app_nil_r.
  - cbn [flush_writes_loop]. step_monad. rewrite IH. simpl.
    rewrite app_cons_assoc. destruct rest; reflexivity.
Qed.

Lemma flush_writes_sends (f : frame) (q : list bytes) :
  write_buffer (self f) = Some q ->
  ClientWebSocketConnection_flush_writes f =
    (Returned tt,
     mk_frame (set_write_buffer None (self f))
              (calls f ++ flushed (stream_id (self f)) q ++ [transmit_call])).
Proof.
  destruct f as [o c]. simpl. intros Hq.
  unfold ClientWebSocketConnection_flush_writes. step_monad. rewrite Hq.
  rewrite flush_writes_loop_sends. simpl.
  rewrite <- app_assoc. destruct q; reflexivity.
Qed.

Lemma flush_writes_retired (f : frame) :
  write_buffer (self f) = None ->
  ClientWebSocketConnection_flush_writes f = (Raised AttributeError, f).
Proof.
  destruct f as [o c]. simpl. intros Hq.
  unfold ClientWebSocketConnection_flush_writes. step_monad. by rewrite Hq.
Qed.

(** *** What the methods leave alone *)

Ltac crush_frame f :=
  destruct f as [[k sid a c rq wb r] cs]; unfold consistent, same_buffering in *;
  simpl in *.

Lemma read_same_buffering (n : Z) (f : frame) :
  same_buffering (self f) (self (state_after (XpraQuicConnection_read n f))).
Proof.
  crush_frame f. unfold XpraQuicConnection_read. step_monad.
  destruct rq; simpl; auto.
Qed.

Lemma base_event_same_buffering (event : H3Event) (f : frame) :
  same_buffering
    (self f)
    (self (state_after (XpraQuicConnection_http_event_received event f))).
Proof.
  crush_frame f. unfold XpraQuicConnection_http_event_received. step_monad.
  destruct c; simpl; auto. destruct event; simpl; auto.
Qed.

Lemma send_close_same_buffering (code : Z) (reason : str) (f : frame) :
  consistent (self f) ->
  same_buffering
    (self f)
    (self (state_after (XpraQuicConnection_send_close code reason f))).
Proof.
  crush_frame f. intros [-> [Ha Hb]].
  unfold XpraQuicConnection_send_close, write,
    ClientWebSocketConnection_write, XpraQuicConnection_write,
    XpraQuicConnection_send_headers.
  step_monad. destruct a; simpl; auto.
  rewrite (Ha eq_refl). simpl. auto.
Qed.

Lemma close_same_buffering (f : frame) :
  consistent (self f) ->
  same_buffering (self f) (self (state_after (XpraQuicConnection_close f))).
Proof.
  intros Hc. pose proof (send_close_same_buffering 1000 "" f Hc) as Hs.
  crush_frame f. unfold XpraQuicConnection_close, Connection_close.
  step_monad. destruct c; simpl; auto.
  destruct (XpraQuicConnection_send_close 1000 "" _) as [[u|e|] [o' cs']];
    simpl in *; auto.
Qed.

Lemma headers_loop_buffering (headers : list (bytes * bytes)) :
  forall f,
    consistent (self f) ->
    let o' := self (state_after (headers_loop headers f)) in
    consistent o' /\ stream_id o' = stream_id (self f) /\
    (same_buffering (self f) o' \/ accepted o' = true).
Proof.
  induction headers as [|[header value] rest IH]; intros f Hc.
  - simpl. split; [done|]. split; [done|]. left. by unfold same_buffering.
  - cbn [headers_loop].
    destruct (String.eqb header "sec-websocket-protocol"); [|by apply IH].
    destruct (decode value) as [text|].
    2:{ simpl. split; [done|]. split; [done|]. left.
        by unfold same_buffering. }
    cbv zeta. destruct (negb _).
    + (* the list lacks xpra: warn and close *)
      pose proof (close_same_buffering
                    (mk_frame (self f)
                       (calls f ++ [log_warn
                          (unsupported_websocket_subprotocols
                             (split_comma text))])) Hc) as Hs.
      destruct f as [o cs]. step_monad.
      destruct Hs as (Hk & Hsid & Ha & Hw). destruct Hc as [Hc1 Hc2].
      split; [|split; [done|left; done]].
      split; [congruence|]. by rewrite Ha, Hw.
    + (* accepted: flush, then the rest of the headers *)
      destruct f as [o cs]. destruct Hc as [Hk Hc]. simpl in *.
      destruct (write_buffer o) as [q|] eqn:Hwb.
      * pose proof (flush_writes_sends
                      (mk_frame (set_accepted true o) cs) q Hwb) as Hf.
        simpl in Hf. step_monad. rewrite Hf.
        specialize (IH (mk_frame
                          (set_write_buffer None (set_accepted true o))
                          (cs ++ flushed (stream_id o) q ++ [transmit_call]))).
        simpl in IH. destruct IH as (Hc' & Hsid & Hor); [by split|].
        split; [done|]. split; [done|]. right.
        destruct Hor as [(_ & _ & Ha & _)|Ha]; [by rewrite Ha|done].
      * pose proof (flush_writes_retired
                      (mk_frame (set_accepted true o) cs) Hwb) as Hf.
        step_monad. rewrite Hf. simpl.
        split; [by split|]. split; [done|]. by right.
Qed.

(** Every operation keeps the object consistent. *)
Lemma exec_consistent (f : frame) (o : op) :
  consistent (self f) -> consistent (self (exec f o)).
Proof.
  intros Hc. destruct o as [buf|n| |code reason|event]; simpl.
  - crush_frame f. destruct Hc as [-> [Ha Hb]].
    unfold write, ClientWebSocketConnection_write, XpraQuicConnection_write.
    step_monad. destruct wb; simpl; [|by split].
    split; [done|]. split; intros Hx; [|done].
    by specialize (Ha Hx).
  - pose proof (read_same_buffering n f) as (Hk & _ & Ha & Hw).
    destruct Hc as [Hc1 Hc2]. split; [congruence|]. by rewrite Ha, Hw.
  - pose proof (close_same_buffering f Hc) as (Hk & _ & Ha & Hw).
    destruct Hc as [Hc1 Hc2]. split; [congruence|]. by rewrite Ha, Hw.
  - pose proof (send_close_same_buffering code reason f Hc)
      as (Hk & _ & Ha & Hw).
    destruct Hc as [Hc1 Hc2]. split; [congruence|]. by rewrite Ha, Hw.
  - unfold http_event_received. pose proof Hc as [Hk Hc2].
    unfold bind at 1, attr at 1. rewrite Hk.
    destruct event as [headers sid' ended|data sid' ended|hs pid sid'|d fid];
      cbn [ClientWebSocketConnection_http_event_received].
    + by apply headers_loop_buffering.
    + pose proof (base_event_same_buffering (DataReceived data sid' ended) f)
        as (Hk' & _ & Ha & Hw).
      split; [congruence|]. by rewrite Ha, Hw.
    + pose proof (base_event_same_buffering
                    (PushPromiseReceived hs pid sid') f)
        as (Hk' & _ & Ha & Hw).
      split; [congruence|]. by rewrite Ha, Hw.
    + pose proof (base_event_same_buffering (DatagramReceived d fid) f)
        as (Hk' & _ & Ha & Hw).
      split; [congruence|]. by rewrite Ha, Hw.
Qed.





Lemma headers_loop_skip (pre rest : list (bytes * bytes)) (f : frame) :
  no_subprotocol_header pre ->
  headers_loop (pre ++ rest) f = headers_loop rest f.
Proof.
  induction 1 as [|[header value] pre Hh _ IH]; [done|].
  simpl in *. by rewrite Hh.
Qed.

Lemma headers_loop_none (headers : list (bytes * bytes)) (f : frame) :
  no_subprotocol_header headers -> headers_loop headers f = (Returned tt, f).
Proof.
  intros Hn. rewrite <- (app_nil_r headers). by rewrite headers_loop_skip.
Qed.




(** [close] returns, and leaves the connection closed; acceptance is
    untouched. *)
Lemma close_returns (f : frame) :
  result_of (XpraQuicConnection_close f) = Returned tt /\
  closed (self (state_after (XpraQuicConnection_close f))) = true /\
  accepted (self (state_after (XpraQuicConnection_close f)))
    = accepted (self f) /\
  exists more,
    calls (state_after (XpraQuicConnection_close f)) = calls f ++ more.
Proof.
  destruct f as [[k sid a c rq wb r] cs].
  unfold XpraQuicConnection_close, XpraQuicConnection_send_close,
    Connection_close, write, ClientWebSocketConnection_write,
    XpraQuicConnection_write, XpraQuicConnection_send_headers.
  step_monad.
  destruct c, a, k, wb; simpl; repeat split; try done;
    rewrite <- ?app_assoc; eauto using app_nil_r, eq_sym.
Qed.

Lemma headers_loop_accepted (headers : list (bytes * bytes)) :
  forall f,
    accepted (self f) = true ->
    accepted (self (state_after (headers_loop headers f))) = true.
Proof.
  induction headers as [|[header value] rest IH]; intros f Ha; [done|].
  cbn [headers_loop].
  destruct (String.eqb header "sec-websocket-protocol"); [|by apply IH].
  destruct (decode value) as [text|]; [|done].
  cbv zeta. destruct (negb _).
  - pose proof (close_returns
                  (mk_frame (self f)
                     (calls f ++ [log_warn
                        (unsupported_websocket_subprotocols
                           (split_comma text))]))) as (_ & _ & Hacc & _).
    destruct f as [o cs]. step_monad. congruence.
  - destruct f as [o cs]. simpl in *.
    destruct (write_buffer o) as [q|] eqn:Hwb.
    + pose proof (flush_writes_sends
                    (mk_frame (set_accepted true o) cs) q Hwb) as Hf.
      step_monad. rewrite Hf. by apply IH.
    + pose proof (flush_writes_retired
                    (mk_frame (set_accepted true o) cs) Hwb) as Hf.
      step_monad. by rewrite Hf.
Qed.

(** What [close] asks of the HTTP connection, in every case: nothing when
    the connection is already closed; the close frame when the stream is
    accepted; the [:status] response otherwise. *)
Lemma close_asks (f : frame) :
  consistent (self f) ->
  result_of (XpraQuicConnection_close f) = Returned tt /\
  closed (self (state_after (XpraQuicConnection_close f))) = true /\
  accepted (self (state_after (XpraQuicConnection_close f)))
    = accepted (self f) /\
  calls (state_after (XpraQuicConnection_close f)) =
    calls f ++
      (if closed (self f) then []
       else if accepted (self f) then
         [send_data_call (stream_id (self f))
            (memoryview_to_bytes (close_packet 1000 "")) true;
          transmit_call]
       else
         [send_headers_call (stream_id (self f))
            (binary_headers [(":status", HInt 1000)]) true;
          transmit_call]).
Proof.
  destruct f as [[k sid a c rq wb r] cs]. simpl.
  intros [Hk [Hwb _]]. simpl in *. subst k.
  unfold XpraQuicConnection_close, XpraQuicConnection_send_close,
    Connection_close, write, ClientWebSocketConnection_write,
    XpraQuicConnection_write, XpraQuicConnection_send_headers.
  step_monad.
  destruct c; simpl; [by rewrite app_nil_r|].
  destruct a; simpl; [|by rewrite <- ?app_assoc].
  rewrite (Hwb eq_refl). simpl. by rewrite <- ?app_assoc.
Qed.

(** C2, as the code has it. Response headers whose first
    [sec-websocket-protocol] header decodes to a comma-separated list
    without [xpra], on a client connection in any state it can be in: a
    warning is logged; then, unless the connection was closed already,
    the HTTP connection is asked to send, with [end_stream] set, the
    [:status] 1000 response when the stream was never accepted and the
    websocket close frame when it was, and to transmit; on a connection
    that was closed already nothing but the warning is added. Either way
    the connection is closed, the handler returns, nothing is raised, and
    the stream is not accepted by it. When the list has [xpra], the
    stream is accepted. *)
Theorem subprotocol_check
        (f : frame) (pre post : list (bytes * bytes)) (value : bytes)
        (sid : Z) (ended : bool) (text : str) :
  consistent (self f) ->
  no_subprotocol_header pre ->
  decode value = Some text ->
  let r := ClientWebSocketConnection_http_event_received
             (HeadersReceived
                (pre ++ ("sec-websocket-protocol", value) :: post) sid ended)
             f in
  if bool_decide ("xpra" ∈ split_comma text) then
    accepted (self (state_after r)) = true
  else
    result_of r = Returned tt /\
    closed (self (state_after r)) = true /\
    accepted (self (state_after r)) = accepted (self f) /\
    calls (state_after r) =
      calls f ++
        log_warn (unsupported_websocket_subprotocols (split_comma text)) ::
        (if closed (self f) then []
         else if accepted (self f) then
           [send_data_call (stream_id (self f))
              (memoryview_to_bytes (close_packet 1000 "")) true;
            transmit_call]
         else
           [send_headers_call (stream_id (self f))
              (binary_headers [(":status", HInt 1000)]) true;
            transmit_call]).
Proof.
  intros Hc Hpre Hdec r. subst r.
  cbn [ClientWebSocketConnection_http_event_received].
  rewrite headers_loop_skip by done. cbn [headers_loop].
  rewrite String.eqb_refl, Hdec. cbv zeta.
  destruct (bool_decide _); cbn [negb].
  - destruct f as [o cs]. simpl.
    destruct (write_buffer o) as [q|] eqn:Hwb.
    + pose proof (flush_writes_sends
                    (mk_frame (set_accepted true o) cs) q Hwb) as Hf.
      step_monad. rewrite Hf. by apply headers_loop_accepted.
    + pose proof (flush_writes_retired
                    (mk_frame (set_accepted true o) cs) Hwb) as Hf.
      step_monad. by rewrite Hf.
  - pose proof (close_asks
                  (mk_frame (self f)
                     (calls f ++ [log_warn
                        (unsupported_websocket_subprotocols
                           (split_comma text))])) Hc)
      as (Hret & Hclosed & Hacc & Hcalls).
    destruct f as [o cs]. step_monad.
    repeat split; try done. by rewrite Hcalls, <- app_assoc.
Qed.

(** C4, as the code has it. On a connection whose [closed] flag is set,
    [read] does not fail: it returns the oldest queued chunk, and blocks
    when there is none. Nor does [write] fail on a client connection that
    still has its write buffer (one closed before it was accepted): the
    buffer is queued, nothing is sent, and the length of the buffer is
    returned. (A [write] that goes to the stream hands the data to the
    HTTP connection with [end_stream] set; what comes of that is the HTTP
    library's and is not stated here.) *)
Theorem closed_write_read (f : frame) (buf : bytes) (n : Z) :
  closed (self f) = true ->
  XpraQuicConnection_read n f =
    match read_queue (self f) with
    | [] => (Blocked, f)
    | chunk :: rest =>
        (Returned chunk, mk_frame (set_read_queue rest (self f)) (calls f))
    end /\
  forall q,
    write_buffer (self f) = Some q ->
    ClientWebSocketConnection_write buf f =
      (Returned (len buf),
       mk_frame (set_write_buffer (Some (q ++ [buf])) (self f)) (calls f)).
Proof.
  destruct f as [[k sid a c rq wb r] cs]. simpl. intros ->.
  unfold ClientWebSocketConnection_write, XpraQuicConnection_read.
  step_monad.
  split; [by destruct rq|]. by intros q ->.
Qed.

(** What [close] sends on a connection that is not yet closed. *)
Lemma close_sends (f : frame) :
  closed (self f) = false ->
  (class_of (self f) = ClientWebSocketConnection -> consistent (self f)) ->
  result_of (XpraQuicConnection_close f) = Returned tt /\
  closed (self (state_after (XpraQuicConnection_close f))) = true /\
  calls (state_after (XpraQuicConnection_close f)) =
    calls f ++
      (if accepted (self f) then
         [send_data_call (stream_id (self f))
            (memoryview_to_bytes (close_packet 1000 "")) true;
          transmit_call]
       else
         [send_headers_call (stream_id (self f))
            (binary_headers [(":status", HInt 1000)]) true;
          transmit_call]).
Proof.
  destruct f as [[k sid a c rq wb r] cs]. simpl. intros -> Hc.
  unfold XpraQuicConnection_close, XpraQuicConnection_send_close,
    Connection_close, write, ClientWebSocketConnection_write,
    XpraQuicConnection_write, XpraQuicConnection_send_headers.
  step_monad.
  destruct a, k; simpl; rewrite <- ?app_assoc; try done.
  destruct (Hc eq_refl) as [_ [Hwb _]]. simpl in Hwb.
  rewrite (Hwb eq_refl). simpl. by rewrite <- ?app_assoc.
Qed.

(** C5, as the code has it. Closing, through a reference, a connection
    that is not yet closed: when the stream was accepted a websocket close
    frame is sent on it with [end_stream] set; when it was not, a
    [:status] response is sent with [end_stream] set, and transmitted.
    Either way the call returns and the object is closed. The map
    [_websockets] is left as it was: the entry of the stream stays. *)
Theorem close_sends_and_keeps_entry
        (w : WebSocketClient) (r : nat) (o : connection) :
  heap w !! r = Some o ->
  closed o = false ->
  (class_of o = ClientWebSocketConnection -> consistent o) ->
  let res := with_object r XpraQuicConnection_close w in
  result_of res = Returned tt /\
  wire (state_after res) =
    wire w ++
      (if accepted o then
         [send_data_call (stream_id o)
            (memoryview_to_bytes (close_packet 1000 "")) true;
          transmit_call]
       else
         [send_headers_call (stream_id o)
            (binary_headers [(":status", HInt 1000)]) true;
          transmit_call]) /\
  (exists o', heap (state_after res) !! r = Some o' /\ closed o' = true) /\
  _websockets (state_after res) = _websockets w.
Proof.
  intros Hr Hopen Hc res. subst res. unfold with_object. rewrite Hr.
  destruct (close_sends (mk_frame o (wire w)) Hopen Hc)
    as (Hret & Hclosed & Hcalls).
  unfold result_of, state_after in *. simpl.
  split; [done|]. split; [done|]. split; [|done].
  eexists. split; [|exact Hclosed].
  apply list_lookup_insert_eq. by apply lookup_lt_Some in Hr.
Qed.

(** C6. An event that names a stream which is not a key of [_websockets]:
    the handler logs one warning and returns; the map and every
    connection object are as they were. *)
Theorem unknown_stream_event_ignored
        (w : WebSocketClient) (event : H3Event) (sid : Z) :
  event_stream_id event = Some sid ->
  _websockets w !! sid = None ->
  exists warn,
    WebSocketClient_http_event_received event w =
      (Returned tt,
       mk_client (heap w) (_websockets w) (wire w ++ [log_warn warn])).
Proof.
  intros Hsid Hnone.
  destruct event as [hs s e|d s e|hs p s|d fl]; simpl in Hsid;
    try discriminate; injection Hsid as ->;
    unfold WebSocketClient_http_event_received; step_monad;
    rewrite ?Hnone; eauto.
Qed.

(** C7. [close()] called twice: both calls return, and the second changes
    nothing, neither an attribute of the connection nor the calls made on
    the stream; no second close frame or status response is sent. *)
Theorem close_twice (f : frame) :
  let once := XpraQuicConnection_close f in
  let twice := XpraQuicConnection_close (state_after once) in
  result_of once = Returned tt /\
  result_of twice = Returned tt /\
  state_after twice = state_after once.
Proof.
  destruct f as [[k sid a c rq wb r] cs].
  unfold XpraQuicConnection_close, XpraQuicConnection_send_close,
    Connection_close, write, ClientWebSocketConnection_write,
    XpraQuicConnection_write, XpraQuicConnection_send_headers.
  step_monad.
  destruct c, a, k, wb; simpl; done.
Qed.

(** C8. [open] sends, on the stream it was given, exactly these headers,
    in this order, and transmits: [:authority] and [:path] from its
    arguments, then [:method] CONNECT, [:scheme] https, [:protocol]
    websocket, [sec-websocket-version] 13, [sec-websocket-protocol] xpra
    and [user-agent]. *)
Theorem open_sends_upgrade_headers
        (host : str) (port : Z) (path : str) (w : WebSocketClient) :
  let stream_id := get_next_available_stream_id (wire w) in
  let websocket := length (heap w) in
  WebSocketClient_open host port path w =
    (Returned websocket,
     mk_client
       (heap w ++ [ClientWebSocketConnection_init stream_id])
       (<[stream_id := websocket]> (_websockets w))
       (wire w ++
          [send_headers_call stream_id
             (binary_headers
                [ (":authority", HStr host);
                  (":path", HStr path);
                  (":method", HStr "CONNECT");
                  (":scheme", HStr "https");
                  (":protocol", HStr "websocket");
                  ("sec-websocket-version", HInt 13);
                  ("sec-websocket-protocol", HStr "xpra");
                  ("user-agent", HStr USER_AGENT) ])
             false;
           transmit_call])).
Proof.
  unfold WebSocketClient_open. step_monad.
  by rewrite <- app_assoc.
Qed.

(** C10. [read(n)] does not look at [n]: whatever [n] is, it takes the
    oldest chunk off the queue and returns all of it. *)
Theorem read_ignores_n (n : Z) (f : frame) (chunk : bytes)
        (rest : list bytes) :
  read_queue (self f) = chunk :: rest ->
  XpraQuicConnection_read n f =
    (Returned chunk, mk_frame (set_read_queue rest (self f)) (calls f)) /\
  forall m, XpraQuicConnection_read m f = XpraQuicConnection_read n f.
Proof.
  intros Hq. unfold XpraQuicConnection_read. step_monad. by rewrite Hq.
Qed.

End QuicProperties.

(** ** Admission *)

Section AdmissionProperties.
Variable digest : str -> bytes -> bytes.
Variable peer_is_fatal : bool.

(** C3. Backend [none]: an attempt without a credential is answered [OK];
    an attempt with one is answered [NO_AUTHENTICATION], which is not
    [OK]. The two calls of [test_none] expect exactly this. *)
Theorem none_backend (a : attempt) :
  (supplied_secret a = None -> authenticate digest auth_none a = EXIT_OK) /\
  (forall secret,
      supplied_secret a = Some secret ->
      authenticate digest auth_none a = EXIT_NO_AUTHENTICATION /\
      authenticate digest auth_none a <> EXIT_OK) /\
  forallb (_test_auth digest (salt a) (claimed_username a) (display a))
          test_none = true.
Proof.
  unfold authenticate, verify, peer_response.
  split; [by intros ->|]. split; [by intros secret ->|].
  reflexivity.
Qed.

(** C9. A listener that presents a self-signed certificate: with verify
    mode [required] the connection ends in
    [SSL_CERTIFICATE_VERIFY_FAILURE], whatever the authentication backend;
    with verify mode [none] it ends in [OK] whenever the authentication
    backend accepts the attempt. *)
Theorem self_signed_verify_modes
        (backend : AuthenticationBackend) (a : attempt) :
  tls_connect digest peer_is_fatal verify_required self_signed backend a
    = EXIT_SSL_CERTIFICATE_VERIFY_FAILURE /\
  (authenticate digest backend a = EXIT_OK ->
   tls_connect digest peer_is_fatal verify_none self_signed backend a
     = EXIT_OK).
Proof. split; [reflexivity|]. by intros Hok. Qed.

End AdmissionProperties.

(** ** More on the connection object *)

Section ConnectionProperties.
Context `{Imports}.

Ltac step_monad :=
  unfold bind, ret, raise, block, get, modify, attr, assign, emit,
    state_after, result_of in *; simpl in *.

Ltac open_methods :=
  unfold http_event_received, ClientWebSocketConnection_http_event_received,
    XpraQuicConnection_http_event_received, XpraQuicConnection_close,
    XpraQuicConnection_send_close, Connection_close, write,
    ClientWebSocketConnection_write, XpraQuicConnection_write,
    XpraQuicConnection_send_headers, XpraQuicConnection_read.

Lemma grows_refl (o : connection) : grows o o.
Proof. by unfold grows. Qed.

Lemma grows_trans (o1 o2 o3 : connection) :
  grows o1 o2 -> grows o2 o3 -> grows o1 o3.
Proof.
  unfold grows. intros (Hk & Hs & Ha & Hc) (Hk' & Hs' & Ha' & Hc').
  repeat split; [congruence|congruence|auto|auto].
Qed.

(** What [close] leaves: the flags only grow, the read queue is kept. *)
Lemma close_keeps (f : frame) :
  let f' := state_after (XpraQuicConnection_close f) in
  grows (self f) (self f') /\ read_queue (self f') = read_queue (self f).
Proof.
  destruct f as [[k sid a c rq wb r] cs]. open_methods. step_monad.
  unfold grows. destruct c, a, k, wb; simpl; repeat split; done.
Qed.

Lemma send_close_keeps (code : Z) (reason : str) (f : frame) :
  let f' := state_after (XpraQuicConnection_send_close code reason f) in
  grows (self f) (self f') /\ read_queue (self f') = read_queue (self f).
Proof.
  destruct f as [[k sid a c rq wb r] cs]. open_methods. step_monad.
  unfold grows. destruct c, a, k, wb; simpl; repeat split; done.
Qed.

Lemma flush_writes_keeps (f : frame) :
  let f' := state_after (ClientWebSocketConnection_flush_writes f) in
  grows (self f) (self f') /\ read_queue (self f') = read_queue (self f).
Proof.
  destruct (write_buffer (self f)) as [q|] eqn:Hwb.
  - rewrite (flush_writes_sends f q Hwb). simpl. by unfold grows.
  - rewrite (flush_writes_retired f Hwb). simpl. by unfold grows.
Qed.

Lemma headers_loop_keeps (headers : list (bytes * bytes)) :
  forall f,
    let f' := state_after (headers_loop headers f) in
    grows (self f) (self f') /\ read_queue (self f') = read_queue (self f).
Proof.
  induction headers as [|[header value] rest IH]; intros f.
  - simpl. split; [apply grows_refl|done].
  - cbn [headers_loop].
    destruct (String.eqb header "sec-websocket-protocol"); [|by apply IH].
    destruct (decode value) as [text|];
      [|simpl; split; [apply grows_refl|done]].
    cbv zeta. destruct (negb _).
    + pose proof (close_keeps
                    (mk_frame (self f)
                       (calls f ++ [log_warn
                          (unsupported_websocket_subprotocols
                             (split_comma text))]))) as Hk.
      destruct f as [o cs]. step_monad. exact Hk.
    + destruct f as [o cs].
      pose proof (flush_writes_keeps (mk_frame (set_accepted true o) cs))
        as [Hg Hq].
      step_monad.
      destruct (ClientWebSocketConnection_flush_writes _)
        as [[[]|e|] f1] eqn:Hfl; simpl in *.
      * destruct (IH f1) as [Hg' Hq']. step_monad.
        split; [|congruence].
        eapply grows_trans; [|exact Hg'].
        eapply grows_trans; [|exact Hg].
        unfold grows. simpl. repeat split; done.
      * split; [|done]. eapply grows_trans; [|exact Hg].
        unfold grows. simpl. repeat split; done.
      * split; [|done]. eapply grows_trans; [|exact Hg].
        unfold grows. simpl. repeat split; done.
Qed.

Lemma exec_grows (f : frame) (o : op) : grows (self f) (self (exec f o)).
Proof.
  destruct o as [buf|n| |code reason|event]; simpl.
  - destruct f as [[k sid a c rq wb r] cs]. open_methods. step_monad.
    unfold grows. destruct k, wb; simpl; repeat split; done.
  - destruct f as [[k sid a c rq wb r] cs]. open_methods. step_monad.
    unfold grows. destruct rq; simpl; repeat split; done.
  - apply close_keeps.
  - apply send_close_keeps.
  - destruct event as [headers sid' ended|data sid' ended|hs pid sid'|d fid].
    + destruct (class_of (self f)) eqn:Hk.
      * destruct f as [[k sid a c rq wb r] cs]. simpl in Hk. subst k.
        open_methods. step_monad. unfold grows.
        destruct c; simpl; repeat split; done.
      * unfold http_event_received. unfold bind at 1, attr at 1.
        rewrite Hk. apply headers_loop_keeps.
    + destruct f as [[k sid a c rq wb r] cs]. open_methods. step_monad.
      unfold grows. destruct k, c; simpl; repeat split; done.
    + destruct f as [[k sid a c rq wb r] cs]. open_methods. step_monad.
      unfold grows. destruct k, c; simpl; repeat split; done.
    + destruct f as [[k sid a c rq wb r] cs]. open_methods. step_monad.
      unfold grows. destruct k, c; simpl; repeat split; done.
Qed.

Lemma run_grows (ops : list op) :
  forall f, grows (self f) (self (run ops f)).
Proof.
  induction ops as [|o ops IH]; intros f; [apply grows_refl|].
  change (run (o :: ops) f) with (run ops (exec f o)).
  eapply grows_trans; [apply exec_grows|apply IH].
Qed.

(** X1. Whatever is done with a connection object, of either class and in
    any state, it keeps its class and its stream id, and a flag that is
    set stays set: an accepted stream is never unaccepted, a closed
    connection never reopens. *)
Theorem identity_kept_flags_stay_set (f : frame) (ops : list op) :
  class_of (self (run ops f)) = class_of (self f) /\
  stream_id (self (run ops f)) = stream_id (self f) /\
  (accepted (self f) = true -> accepted (self (run ops f)) = true) /\
  (closed (self f) = true -> closed (self (run ops f)) = true).
Proof. exact (run_grows ops f). Qed.

(** On a closed connection an operation can only take chunks off the read
    queue. *)
Lemma exec_closed_queue (f : frame) (o : op) :
  closed (self f) = true ->
  read_queue (self (exec f o)) `suffix_of` read_queue (self f).
Proof.
  intros Hc. destruct o as [buf|n| |code reason|event]; simpl.
  - destruct f as [[k sid a c rq wb r] cs]. open_methods. step_monad.
    destruct k, wb; simpl; done.
  - destruct f as [[k sid a c rq wb r] cs]. open_methods. step_monad.
    destruct rq; simpl; [done|]. by apply suffix_cons_r.
  - by rewrite (proj2 (close_keeps f)).
  - by rewrite (proj2 (send_close_keeps code reason f)).
  - destruct event as [headers sid' ended|data sid' ended|hs pid sid'|d fid].
    + destruct (class_of (self f)) eqn:Hk.
      * destruct f as [[k sid a c rq wb r] cs]. simpl in *. subst k c.
        open_methods. step_monad. done.
      * unfold http_event_received. unfold bind at 1, attr at 1.
        rewrite Hk. cbn [ClientWebSocketConnection_http_event_received].
        by rewrite (proj2 (headers_loop_keeps headers f)).
    + destruct f as [[k sid a c rq wb r] cs]. simpl in *. subst c.
      open_methods. step_monad. by destruct k.
    + destruct f as [[k sid a c rq wb r] cs]. simpl in *. subst c.
      open_methods. step_monad. by destruct k.
    + destruct f as [[k sid a c rq wb r] cs]. simpl in *. subst c.
      open_methods. step_monad. by destruct k.
Qed.

(** X2. Once a connection is closed nothing is ever added to its read
    queue: whatever events arrive and whatever is called, the queue is
    what is left of the queue it had when it was closed. *)
Theorem closed_queue_only_shrinks (ops : list op) :
  forall f,
    closed (self f) = true ->
    read_queue (self (run ops f)) `suffix_of` read_queue (self f).
Proof.
  induction ops as [|o ops IH]; intros f Hc; [done|].
  change (run (o :: ops) f) with (run ops (exec f o)).
  etrans; [apply IH|by apply exec_closed_queue].
  by apply (exec_grows f o).
Qed.

Lemma data_events_queue (chunks : list (bytes * Z * bool)) :
  forall f,
    closed (self f) = false ->
    run (data_events chunks) f =
      mk_frame (set_read_queue
                  (read_queue (self f) ++ map (fun d => fst (fst d)) chunks)
                  (self f))
               (calls f).
Proof.
  induction chunks as [|[[data sid'] ended] chunks IH]; intros f Hc.
  - simpl. rewrite app_nil_r. by destruct f as [[]].
  - change (run (data_events ((data, sid', ended) :: chunks)) f)
      with (run (data_events chunks)
              (exec f (op_http_event_received
                         (DataReceived data sid' ended)))).
    assert (He : exec f (op_http_event_received
                           (DataReceived data sid' ended)) =
                 mk_frame (set_read_queue (read_queue (self f) ++ [data])
                                          (self f)) (calls f)).
    { destruct f as [[k sid a c rq wb r] cs]. simpl in Hc. subst c.
      simpl. open_methods. step_monad. by destruct k. }
    rewrite He, IH by done. simpl. by rewrite <- app_assoc.
Qed.

Lemma read_all_drains (q : list bytes) :
  forall sizes f,
    read_queue (self f) = q ->
    length sizes = length q ->
    read_all sizes f = (q, mk_frame (set_read_queue [] (self f)) (calls f)).
Proof.
  induction q as [|chunk q IH]; intros sizes f Hq Hlen.
  - destruct sizes; [|discriminate]. simpl.
    destruct f as [[k sid a c rq wb r] cs]. simpl in Hq. by subst rq.
  - destruct sizes as [|n sizes]; [discriminate|]. injection Hlen as Hlen.
    cbn [read_all]. unfold XpraQuicConnection_read. step_monad.
    rewrite Hq. simpl.
    by rewrite (IH sizes (mk_frame (set_read_queue q (self f)) (calls f))).
Qed.

(** X3. Data in, data out. On a connection that is not closed, the data
    of the [DataReceived] events that arrive joins the read queue in
    arrival order, whatever stream id the events carry, and nothing is
    sent or logged; as many reads as there are chunks then return the
    chunks already queued followed by the arrived ones, each once, in
    order, and leave the queue empty. *)
Theorem data_received_then_read
        (f : frame) (chunks : list (bytes * Z * bool)) (sizes : list Z) :
  closed (self f) = false ->
  length sizes = (length (read_queue (self f)) + length chunks)%nat ->
  let f' := run (data_events chunks) f in
  calls f' = calls f /\
  read_all sizes f' =
    (read_queue (self f) ++ map (fun d => fst (fst d)) chunks,
     mk_frame (set_read_queue [] (self f)) (calls f)).
Proof.
  intros Hc Hlen f'. subst f'. rewrite data_events_queue by done.
  split; [done|].
  rewrite (read_all_drains
             (read_queue (self f) ++ map (fun d => fst (fst d)) chunks));
    [done|done|].
  by rewrite Hlen, length_app, length_map.
Qed.

(** X4. A stream is accepted once. On a client connection that is already
    accepted and has dropped its write buffer, response headers that name
    [xpra] again raise [AttributeError]; nothing is sent and the object is
    as it was. *)
Theorem second_acceptance_raises
        (f : frame) (pre post : list (bytes * bytes)) (value : bytes)
        (sid : Z) (ended : bool) (text : str) :
  accepted (self f) = true ->
  write_buffer (self f) = None ->
  no_subprotocol_header pre ->
  decode value = Some text ->
  "xpra" ∈ split_comma text ->
  ClientWebSocketConnection_http_event_received
    (HeadersReceived (pre ++ ("sec-websocket-protocol", value) :: post)
                     sid ended) f =
    (Raised AttributeError, f).
Proof.
  intros Ha Hwb Hpre Hdec Hin.
  cbn [ClientWebSocketConnection_http_event_received].
  rewrite headers_loop_skip by done. cbn [headers_loop].
  rewrite String.eqb_refl, Hdec. cbv zeta.
  rewrite bool_decide_eq_true_2 by done. cbn [negb].
  destruct f as [[k s a c rq wb r] cs]. simpl in *. subst a wb.
  unfold ClientWebSocketConnection_flush_writes. step_monad. done.
Qed.

(** X5. Response headers without a [sec-websocket-protocol] header do
    nothing at all: the handler returns, the stream is neither accepted
    nor closed by them, nothing is sent or logged. *)
Theorem headers_without_subprotocol_ignored
        (f : frame) (headers : list (bytes * bytes)) (sid : Z)
        (ended : bool) :
  no_subprotocol_header headers ->
  ClientWebSocketConnection_http_event_received
    (HeadersReceived headers sid ended) f = (Returned tt, f).
Proof.
  intros Hn. cbn [ClientWebSocketConnection_http_event_received].
  by apply headers_loop_none.
Qed.

(** X6. A [sec-websocket-protocol] header whose value is not well-formed
    UTF-8, coming first: the handler raises [UnicodeDecodeError]; the
    stream is neither accepted nor closed, nothing is sent or logged, and
    the headers after it are not looked at. *)
Theorem undecodable_subprotocol_raises
        (f : frame) (pre post : list (bytes * bytes)) (value : bytes)
        (sid : Z) (ended : bool) :
  no_subprotocol_header pre ->
  utf8_wellformed value = false ->
  ClientWebSocketConnection_http_event_received
    (HeadersReceived (pre ++ ("sec-websocket-protocol", value) :: post)
                     sid ended) f =
    (Raised UnicodeDecodeError, f).
Proof.
  intros Hpre Hbad. cbn [ClientWebSocketConnection_http_event_received].
  rewrite headers_loop_skip by done. cbn [headers_loop].
  rewrite String.eqb_refl. unfold decode. by rewrite Hbad.
Qed.

(** *** What a connection object asks of the HTTP connection *)

Lemma emits_nothing (f f' : frame) : calls f' = calls f -> emits f f'.
Proof. intros Hc. exists []. rewrite app_nil_r. repeat split; done. Qed.

Lemma close_emits (f : frame) :
  emits f (state_after (XpraQuicConnection_close f)).
Proof.
  destruct f as [[k sid a c rq wb r] cs]. unfold emits.
  open_methods. step_monad.
  destruct c, a, k, wb; simpl;
    (try by (exists []; rewrite app_nil_r; repeat split; done));
    rewrite <- ?app_assoc; simpl;
    eexists; (split; [reflexivity|]);
    (split; [repeat constructor|]); intros Hx Hy Hz;
    try discriminate; repeat constructor.
Qed.

Lemma send_close_emits (code : Z) (reason : str) (f : frame) :
  emits f (state_after (XpraQuicConnection_send_close code reason f)).
Proof.
  destruct f as [[k sid a c rq wb r] cs]. unfold emits.
  open_methods. step_monad.
  destruct a, k, wb; simpl;
    (try by (exists []; rewrite app_nil_r; repeat split; done));
    rewrite <- ?app_assoc; simpl;
    eexists; (split; [reflexivity|]);
    (split; [repeat constructor|]); intros Hx Hy Hz;
    try discriminate; repeat constructor.
Qed.

Lemma flushed_on_stream (sid : Z) (q : list bytes) :
  Forall (on_stream sid) (flushed sid q).
Proof. induction q; constructor; done. Qed.

Lemma headers_loop_emits (headers : list (bytes * bytes)) :
  forall f, emits f (state_after (headers_loop headers f)).
Proof.
  induction headers as [|[header value] rest IH]; intros f.
  - by apply emits_nothing.
  - cbn [headers_loop].
    destruct (String.eqb header "sec-websocket-protocol"); [|by apply IH].
    destruct (decode value) as [text|]; [|by apply emits_nothing].
    cbv zeta. destruct (negb _).
    + pose proof (close_emits
                    (mk_frame (self f)
                       (calls f ++ [log_warn
                          (unsupported_websocket_subprotocols
                             (split_comma text))])))
        as (emitted & Hcalls & Hon & Hno).
      destruct f as [o cs]. step_monad.
      exists (log_warn (unsupported_websocket_subprotocols
                          (split_comma text)) :: emitted).
      split; [by rewrite Hcalls, <- app_assoc|].
      split; [by constructor|].
      intros Ha Hk Hwb. constructor; [done|]. by apply Hno.
    + destruct f as [o cs]. simpl.
      assert (Hacc : forall f1,
                 accepted (self f1) = true ->
                 accepted (self (state_after (headers_loop rest f1)))
                   = true) by (intros; by apply headers_loop_accepted).
      destruct (write_buffer o) as [q|] eqn:Hwb.
      * pose proof (flush_writes_sends
                      (mk_frame (set_accepted true o) cs) q Hwb) as Hf.
        step_monad. rewrite Hf.
        set (f1 := mk_frame (set_write_buffer None (set_accepted true o))
                            (cs ++ flushed (stream_id o) q
                                ++ [transmit_call])).
        destruct (IH f1) as (emitted & Hcalls & Hon & _).
        exists ((flushed (stream_id o) q ++ [transmit_call]) ++ emitted).
        split; [rewrite Hcalls; subst f1; simpl; by rewrite <- !app_assoc|].
        split.
        { apply Forall_app. split; [|done].
          apply Forall_app. split; [apply flushed_on_stream|].
          by repeat constructor. }
        intros Ha. specialize (Hacc f1 eq_refl). step_monad. congruence.
      * pose proof (flush_writes_retired
                      (mk_frame (set_accepted true o) cs) Hwb) as Hf.
        step_monad. rewrite Hf. simpl. exists [].
        rewrite app_nil_r. repeat split; [done|]. intros Hx. discriminate.
Qed.

Lemma exec_emits (f : frame) (o : op) : emits f (exec f o).
Proof.
  destruct o as [buf|n| |code reason|event]; simpl.
  - destruct f as [[k sid a c rq wb r] cs]. unfold emits.
    open_methods. step_monad.
    destruct k, wb; simpl;
      (try by (exists []; rewrite app_nil_r; repeat split; done));
      rewrite <- ?app_assoc; simpl;
      eexists; (split; [reflexivity|]);
      (split; [repeat constructor|]); intros Hx Hy Hz;
      try discriminate; try done; repeat constructor.
  - apply emits_nothing. destruct f as [[k sid a c rq wb r] cs].
    open_methods. step_monad. by destruct rq.
  - apply close_emits.
  - apply send_close_emits.
  - assert (Hbase : emits f (state_after
               (XpraQuicConnection_http_event_received event f))).
    { destruct f as [[k sid a c rq wb r] cs]. unfold emits.
      open_methods. step_monad.
      destruct c; simpl;
        [by (exists []; rewrite app_nil_r; repeat split; done)|].
      destruct event; simpl;
        (try by (exists []; rewrite app_nil_r; repeat split; done));
        eexists; (split; [reflexivity|]); repeat split;
        repeat constructor. }
    unfold http_event_received. unfold bind at 1, attr at 1.
    destruct (class_of (self f)) eqn:Hk; [exact Hbase|].
    destruct event; cbn [ClientWebSocketConnection_http_event_received];
      [apply headers_loop_emits|exact Hbase..].
Qed.

Lemma emits_trans (f1 f2 f3 : frame) :
  grows (self f1) (self f2) -> grows (self f2) (self f3) ->
  (class_of (self f1) = ClientWebSocketConnection ->
   consistent (self f1) /\ consistent (self f2)) ->
  emits f1 f2 -> emits f2 f3 -> emits f1 f3.
Proof.
  intros (Hk & Hsid & Ha & _) (_ & _ & Ha' & _) Hcons
         (e1 & Hc1 & Hon1 & Hno1) (e2 & Hc2 & Hon2 & Hno2).
  exists (e1 ++ e2). split; [by rewrite Hc2, Hc1, <- app_assoc|].
  split; [apply Forall_app; split; [done|by rewrite <- Hsid]|].
  intros Hacc Hk1 Hwb.
  assert (Hacc2 : accepted (self f2) = false).
  { destruct (accepted (self f2)) eqn:Hx; [|done].
    specialize (Ha' eq_refl). congruence. }
  apply Forall_app. split; [by apply Hno1|].
  apply Hno2; [done|congruence|]. intros Hnone.
  destruct (Hcons Hk1) as [_ [_ Hc]].
  apply Hc in Hnone. congruence.
Qed.

Lemma run_emits (ops : list op) :
  forall f,
    (class_of (self f) = ClientWebSocketConnection -> consistent (self f)) ->
    emits f (run ops f).
Proof.
  induction ops as [|o ops IH]; intros f Hc; [by apply emits_nothing|].
  change (run (o :: ops) f) with (run ops (exec f o)).
  assert (Hc' : class_of (self (exec f o)) = ClientWebSocketConnection ->
                consistent (self (exec f o))).
  { intros Hk. apply exec_consistent, Hc.
    by rewrite <- (proj1 (exec_grows f o)). }
  apply (emits_trans f (exec f o)).
  - apply exec_grows.
  - apply run_grows.
  - intros Hk. split; [by apply Hc|]. apply Hc'.
    by rewrite (proj1 (exec_grows f o)).
  - apply exec_emits.
  - by apply IH.
Qed.

(** X7. A connection object never asks for anything on another stream:
    whatever is done with it, every [send_headers] and [send_data] it adds
    names its own stream id, and what was asked before is left in
    place. *)
Theorem sends_on_own_stream_only (f : frame) (ops : list op) :
  (class_of (self f) = ClientWebSocketConnection -> consistent (self f)) ->
  exists emitted,
    calls (run ops f) = calls f ++ emitted /\
    Forall (on_stream (stream_id (self f))) emitted.
Proof.
  intros Hc. destruct (run_emits ops f Hc) as (emitted & Hcalls & Hon & _).
  by exists emitted.
Qed.

(** X8. Nothing written reaches the stream before it is accepted: for a
    client connection, from its construction up to any point where it is
    still unaccepted, no [send_data] has been asked for, whatever was
    written, closed or received in between. *)
Theorem no_data_before_acceptance
        (sid : Z) (sent : list call) (ops : list op) :
  let f := run ops (mk_frame (ClientWebSocketConnection_init sid) sent) in
  accepted (self f) = false ->
  exists emitted,
    calls f = sent ++ emitted /\
    Forall (fun c => is_send_data c = false) emitted.
Proof.
  intros f Ha. subst f.
  destruct (run_emits ops (mk_frame (ClientWebSocketConnection_init sid)
                                    sent))
    as (emitted & Hcalls & _ & Hno).
  - intros _. split; [done|]. simpl. split; intros Hx; discriminate.
  - exists emitted. split; [done|]. by apply Hno.
Qed.

(** X9. [send_close(code, reason)] on a connection that is not closed and
    was never accepted, followed by [close()]: the [:status] response
    carries the code given, with [end_stream] set, and is transmitted;
    both calls return, and the [close()] that follows sends nothing
    more. *)
Theorem send_close_code_then_close_silent
        (code : Z) (reason : str) (f : frame) :
  closed (self f) = false ->
  accepted (self f) = false ->
  let f1 := state_after (XpraQuicConnection_send_close code reason f) in
  let f2 := state_after (XpraQuicConnection_close f1) in
  result_of (XpraQuicConnection_send_close code reason f) = Returned tt /\
  result_of (XpraQuicConnection_close f1) = Returned tt /\
  closed (self f2) = true /\
  accepted (self f2) = false /\
  calls f2 =
    calls f ++
      [send_headers_call (stream_id (self f))
         (binary_headers [(":status", HInt code)]) true;
       transmit_call].
Proof.
  destruct f as [[k sid a c rq wb r] cs]. simpl. intros -> ->.
  open_methods. step_monad. by rewrite <- app_assoc.
Qed.

End ConnectionProperties.

(** ** More on the protocol object *)

Section ProtocolProperties.
Context `{Imports}.

Ltac step_monad :=
  unfold bind, ret, raise, block, get, modify, attr, assign, emit,
    state_after, result_of in *; simpl in *.

Lemma perform_state (o : op) (f : frame) :
  state_after (perform o f) = exec f o.
Proof.
  destruct o; simpl; try done; unfold bind, ret, state_after;
    match goal with |- context [?m f] => destruct (m f) as [[?|?|] ?] end;
    done.
Qed.

(** A method call through a reference keeps the protocol object well
    formed when the method keeps a consistent object consistent, on its
    stream. *)
Lemma with_object_well_formed {A} (r : nat) (m : M frame A)
      (w : WebSocketClient) :
  well_formed w ->
  (forall o cs,
      consistent o ->
      consistent (self (state_after (m (mk_frame o cs)))) /\
      stream_id (self (state_after (m (mk_frame o cs)))) = stream_id o) ->
  well_formed (state_after (with_object r m w)).
Proof.
  intros Hwf Hm sid r0 Hr0. unfold with_object in *.
  destruct (heap w !! r) as [o|] eqn:Hr; simpl in *; [|by apply Hwf].
  destruct (Hwf sid r0 Hr0) as (o0 & Ho0 & Hc0 & Hs0).
  destruct (decide (r0 = r)) as [->|Hne].
  - rewrite Hr in Ho0. injection Ho0 as ->.
    destruct (Hm o0 (wire w) Hc0) as [Hc Hs].
    eexists. split; [|split; [exact Hc|by rewrite Hs]].
    apply list_lookup_insert_eq. by apply lookup_lt_Some in Hr.
  - exists o0. split; [|done]. by rewrite list_lookup_insert_ne.
Qed.

Lemma open_well_formed (host : str) (port : Z) (path : str)
      (w : WebSocketClient) :
  well_formed w ->
  well_formed (state_after (WebSocketClient_open host port path w)).
Proof.
  intros Hwf sid r Hr. unfold WebSocketClient_open in *. step_monad.
  destruct (decide (get_next_available_stream_id (wire w) = sid))
    as [<-|Hne].
  - rewrite lookup_insert_eq in Hr. injection Hr as <-.
    eexists. split; [by apply list_lookup_middle|].
    split; [|done]. split; [done|]. simpl. split; intros Hx; discriminate.
  - rewrite lookup_insert_ne in Hr by done.
    destruct (Hwf sid r Hr) as (o & Ho & Hc & Hs).
    exists o. split; [|done]. by apply lookup_app_l_Some.
Qed.

Lemma event_well_formed (event : H3Event) (w : WebSocketClient) :
  well_formed w ->
  well_formed (state_after (WebSocketClient_http_event_received event w)).
Proof.
  intros Hwf.
  assert (Hrouted : forall r,
             well_formed (state_after
                            (with_object r (http_event_received event) w))).
  { intros r. apply with_object_well_formed; [done|]. intros o cs Hc.
    split.
    - apply (exec_consistent (mk_frame o cs)
                             (op_http_event_received event) Hc).
    - apply (exec_grows (mk_frame o cs) (op_http_event_received event)). }
  unfold WebSocketClient_http_event_received.
  destruct event as [hs sid e|d sid e|hs p sid|d fl]; try done;
    unfold bind at 1, get at 1;
    destruct (_websockets w !! sid) as [r|]; try done; apply Hrouted.
Qed.

Lemma batch_well_formed (http_events : list H3Event) :
  forall w,
    well_formed w ->
    well_formed (state_after
                   (WebSocketClient_quic_event_received http_events w)).
Proof.
  induction http_events as [|event rest IH]; intros w Hwf; [done|].
  cbn [WebSocketClient_quic_event_received]. unfold bind at 1.
  pose proof (event_well_formed event w Hwf) as Hwf'.
  destruct (WebSocketClient_http_event_received event w) as [[[]|e|] w'];
    [by apply IH|done|done].
Qed.

Lemma wexec_well_formed (w : WebSocketClient) (o : wop) :
  well_formed w -> well_formed (wexec w o).
Proof.
  intros Hwf. destruct o as [host port path|event|events|r o]; simpl.
  - by apply (open_well_formed host port path).
  - by apply event_well_formed.
  - by apply batch_well_formed.
  - apply with_object_well_formed; [done|]. intros o' cs Hc.
    rewrite perform_state. split; [by apply exec_consistent|].
    apply (exec_grows (mk_frame o' cs) o).
Qed.

(** X10. Whatever a protocol object has been through since it was made
    ([open] calls, events, batches of events, method calls by the holders
    of its connections): every stream id in [_websockets] leads to a
    connection object that is a [ClientWebSocketConnection], was made for
    that very stream id, and has a write buffer exactly while it is not
    accepted. *)
Theorem registry_well_formed (ops : list wop) (sid : Z) (r : nat) :
  _websockets (wrun ops WebSocketClient_init) !! sid = Some r ->
  exists o,
    heap (wrun ops WebSocketClient_init) !! r = Some o /\
    class_of o = ClientWebSocketConnection /\
    stream_id o = sid /\
    (accepted o = true <-> write_buffer o = None).
Proof.
  assert (Hwf : forall w, well_formed w -> well_formed (wrun ops w)).
  { induction ops as [|o ops IH]; intros w Hw; [done|].
    apply IH. by apply wexec_well_formed. }
  intros Hr. destruct (Hwf WebSocketClient_init) with (sid := sid) (r := r)
    as (o & Ho & [Hk Hc] & Hs); [|done|by exists o].
  intros sid' r' Hx. simpl in Hx. by rewrite lookup_empty in Hx.
Qed.

(** X11. An event changes nothing but the connection object filed under
    the stream it names: [_websockets] is as it was, and so is every
    object that is not the one the event was routed to. *)
Theorem event_leaves_other_streams
        (w : WebSocketClient) (event : H3Event) (r' : nat) :
  (forall sid,
      event_stream_id event = Some sid -> _websockets w !! sid <> Some r') ->
  let w' := state_after (WebSocketClient_http_event_received event w) in
  _websockets w' = _websockets w /\
  heap w' !! r' = heap w !! r'.
Proof.
  intros Hother w'. subst w'.
  unfold WebSocketClient_http_event_received.
  destruct event as [hs sid e|d sid e|hs p sid|d fl]; step_monad;
    try done.
  - destruct (_websockets w !! sid) as [r|] eqn:Hr; [|done].
    unfold with_object. destruct (heap w !! r) as [o|]; [|done]. simpl.
    split; [done|]. apply list_lookup_insert_ne.
    intros ->. by apply (Hother sid).
  - destruct (_websockets w !! sid) as [r|] eqn:Hr; [|done].
    unfold with_object. destruct (heap w !! r) as [o|]; [|done]. simpl.
    split; [done|]. apply list_lookup_insert_ne.
    intros ->. by apply (Hother sid).
Qed.

(** X12. A batch of events none of which is for a stream of the map: the
    batch is worked through to its end, one warning is logged per event,
    in order, and nothing else changes. *)
Theorem unrouted_batch_logged
        (http_events : list H3Event) (w : WebSocketClient) :
  Forall (unrouted w) http_events ->
  WebSocketClient_quic_event_received http_events w =
    (Returned tt,
     mk_client (heap w) (_websockets w)
               (wire w ++ map (fun e => log_warn (warning_for e))
                              http_events)).
Proof.
  revert w. induction http_events as [|event rest IH]; intros w Hall.
  - simpl. rewrite app_nil_r. by destruct w.
  - apply Forall_cons in Hall as [Hev Hrest].
    cbn [WebSocketClient_quic_event_received]. unfold bind at 1.
    assert (He : WebSocketClient_http_event_received event w =
                 (Returned tt,
                  mk_client (heap w) (_websockets w)
                            (wire w ++ [log_warn (warning_for event)]))).
    { unfold WebSocketClient_http_event_received.
      destruct event; simpl in Hev; step_monad; rewrite ?Hev; done. }
    rewrite He, IH.
    + simpl. by rewrite <- app_assoc.
    + eapply Forall_impl; [exact Hrest|]. intros e. by destruct e.
Qed.

(** A batch in two parts: the second part is worked through only when
    the first returned. *)
Lemma quic_event_received_app
      (events1 events2 : list H3Event) (w : WebSocketClient) :
  WebSocketClient_quic_event_received (events1 ++ events2) w =
    match WebSocketClient_quic_event_received events1 w with
    | (Returned _, w1) => WebSocketClient_quic_event_received events2 w1
    | (Raised e, w1) => (Raised e, w1)
    | (Blocked, w1) => (Blocked, w1)
    end.
Proof.
  revert w. induction events1 as [|event rest IH]; intros w; [done|].
  cbn [app WebSocketClient_quic_event_received]. unfold bind.
  destruct (WebSocketClient_http_event_received event w) as [[[]|e|] w1];
    [apply IH|done|done].
Qed.

Lemma writes_through_reference (bufs : list bytes) :
  forall w r o q,
    heap w !! r = Some o ->
    class_of o = ClientWebSocketConnection ->
    write_buffer o = Some q ->
    wrun (map (fun buf => w_call r (op_write buf)) bufs) w =
      mk_client (<[r := set_write_buffer (Some (q ++ bufs)) o]> (heap w))
                (_websockets w) (wire w).
Proof.
  induction bufs as [|buf bufs IH]; intros w r o q Hr Hk Hq.
  - simpl. rewrite app_nil_r. destruct w as [hp ws wr]. simpl in *.
    f_equal. symmetry. apply list_insert_id.
    rewrite Hr. f_equal. destruct o. simpl in *. by subst.
  - cbn [map]. change (wrun (?o :: ?l) w) with (wrun l (wexec w o)).
    assert (He : wexec w (w_call r (op_write buf)) =
                 mk_client (<[r := set_write_buffer (Some (q ++ [buf])) o]>
                              (heap w))
                           (_websockets w) (wire w)).
    { simpl. unfold with_object. rewrite Hr. unfold write,
        ClientWebSocketConnection_write. step_monad. rewrite Hk.
      simpl. by rewrite Hq. }
    rewrite He.
    rewrite (IH _ r (set_write_buffer (Some (q ++ [buf])) o) (q ++ [buf]));
      [|apply list_lookup_insert_eq; by apply lookup_lt_Some in Hr
       |done|done].
    simpl. by rewrite list_insert_insert_eq, <- app_assoc.
Qed.

Lemma http_event_received_client (event : H3Event) (f : frame) :
  class_of (self f) = ClientWebSocketConnection ->
  http_event_received event f =
    ClientWebSocketConnection_http_event_received event f.
Proof.
  intros Hk. unfold http_event_received. unfold bind, attr. by rewrite Hk.
Qed.

Lemma accept_flushes (f : frame) (q : list bytes)
      (pre post : list (bytes * bytes)) (value : bytes) (sid : Z)
      (ended : bool) (text : str) :
  write_buffer (self f) = Some q ->
  no_subprotocol_header pre -> no_subprotocol_header post ->
  decode value = Some text -> "xpra" ∈ split_comma text ->
  ClientWebSocketConnection_http_event_received
    (HeadersReceived (pre ++ ("sec-websocket-protocol", value) :: post)
                     sid ended) f =
    (Returned tt,
     mk_frame (set_write_buffer None (set_accepted true (self f)))
              (calls f ++ flushed (stream_id (self f)) q
                       ++ [transmit_call])).
Proof.
  intros Hq Hpre Hpost Hdec Hin.
  cbn [ClientWebSocketConnection_http_event_received].
  rewrite headers_loop_skip by done. cbn [headers_loop].
  rewrite String.eqb_refl, Hdec. cbv zeta.
  rewrite bool_decide_eq_true_2 by done. cbn [negb].
  destruct f as [o cs]. simpl in *.
  pose proof (flush_writes_sends (mk_frame (set_accepted true o) cs) q Hq)
    as Hf.
  step_monad. rewrite Hf. simpl. by rewrite headers_loop_none.
Qed.

(** X14. From [open] to the first data on the wire. A stream is opened,
    its holder writes some buffers through the connection object [open]
    returned, and the response headers for that stream arrive, naming
    [xpra]: nothing is asked of the HTTP connection between the upgrade
    request and the response; the response is routed to that object,
    which sends the buffers on the opened stream, in the order written,
    and transmits once; the object ends accepted, without write
    buffer. *)
Theorem open_write_accept
        (w0 : WebSocketClient) (host : str) (port : Z) (path : str)
        (bufs : list bytes) (pre post : list (bytes * bytes))
        (value : bytes) (ended : bool) (text : str) :
  no_subprotocol_header pre -> no_subprotocol_header post ->
  decode value = Some text -> "xpra" ∈ split_comma text ->
  let sid := get_next_available_stream_id (wire w0) in
  let r := length (heap w0) in
  let w1 := state_after (WebSocketClient_open host port path w0) in
  let w2 := wrun (map (fun buf => w_call r (op_write buf)) bufs) w1 in
  let res := WebSocketClient_http_event_received
               (HeadersReceived
                  (pre ++ ("sec-websocket-protocol", value) :: post)
                  sid ended) w2 in
  wire w2 = wire w1 /\
  result_of res = Returned tt /\
  wire (state_after res) =
    wire w1 ++ flushed sid bufs ++ [transmit_call] /\
  heap (state_after res) !! r =
    Some (set_write_buffer None
            (set_accepted true (ClientWebSocketConnection_init sid))).
Proof.
  intros Hpre Hpost Hdec Hin sid r w1 w2 res.
  set (o1 := ClientWebSocketConnection_init sid) in *.
  assert (Hw1 : exists sent,
             w1 = mk_client (heap w0 ++ [o1])
                            (<[sid := r]> (_websockets w0)) sent).
  { eexists. subst w1. unfold WebSocketClient_open. by step_monad. }
  destruct Hw1 as [sent Hw1]. clearbody w1. subst w1.
  assert (Hr1 : (heap w0 ++ [o1]) !! r = Some o1)
    by by apply list_lookup_middle.
  assert (Hlt : (r < length (heap w0 ++ [o1]))%nat)
    by by apply lookup_lt_Some in Hr1.
  assert (Hw2 : w2 = mk_client
                       (<[r := set_write_buffer (Some bufs) o1]>
                          (heap w0 ++ [o1]))
                       (<[sid := r]> (_websockets w0)) sent).
  { subst w2.
    by rewrite (writes_through_reference bufs
                  (mk_client (heap w0 ++ [o1])
                             (<[sid := r]> (_websockets w0)) sent)
                  r o1 [] Hr1). }
  clearbody w2. subst w2. cbn [wire].
  assert (Hres : res =
            (Returned tt,
             mk_client
               (<[r := set_write_buffer None (set_accepted true o1)]>
                  (<[r := set_write_buffer (Some bufs) o1]>
                     (heap w0 ++ [o1])))
               (<[sid := r]> (_websockets w0))
               (sent ++ flushed sid bufs ++ [transmit_call]))).
  { subst res. unfold WebSocketClient_http_event_received.
    unfold bind at 1, get at 1.
    cbn [_websockets]. rewrite lookup_insert_eq.
    unfold with_object. cbn [heap wire].
    rewrite list_lookup_insert_eq by done.
    rewrite http_event_received_client by done.
    by rewrite (accept_flushes _ bufs pre post value sid ended text). }
  rewrite Hres. unfold result_of, state_after. simpl.
  split; [done|]. split; [done|]. split; [done|].
  apply list_lookup_insert_eq. by rewrite length_insert.
Qed.

(** The data events of a batch for one open stream reach its
    connection object in batch order. *)
Lemma data_batch_delivered (chunks : list (bytes * bool)) :
  forall w sid r o,
    _websockets w !! sid = Some r ->
    heap w !! r = Some o ->
    closed o = false ->
    WebSocketClient_quic_event_received
      (map (fun d => DataReceived (fst d) sid (snd d)) chunks) w =
      (Returned tt,
       mk_client
         (<[r := set_read_queue (read_queue o ++ map fst chunks) o]>
            (heap w))
         (_websockets w) (wire w)).
Proof.
  induction chunks as [|[data ended] chunks IH]; intros w sid r o Hs Hr Hc.
  - simpl. rewrite app_nil_r. destruct w as [hp ws wr]. simpl in *.
    do 2 f_equal. symmetry. apply list_insert_id.
    rewrite Hr. f_equal. by destruct o.
  - cbn [map WebSocketClient_quic_event_received fst snd].
    assert (He : WebSocketClient_http_event_received
                   (DataReceived data sid ended) w =
                 (Returned tt,
                  mk_client
                    (<[r := set_read_queue (read_queue o ++ [data]) o]>
                       (heap w))
                    (_websockets w) (wire w))).
    { unfold WebSocketClient_http_event_received.
      unfold bind at 1, get at 1. rewrite Hs. unfold with_object.
      rewrite Hr. destruct o as [k s a c rq wb rl]. simpl in Hc. subst c.
      unfold http_event_received, XpraQuicConnection_http_event_received,
        ClientWebSocketConnection_http_event_received.
      step_monad. by destruct k. }
    unfold bind at 1. rewrite He.
    rewrite (IH _ sid r (set_read_queue (read_queue o ++ [data]) o));
      [|done
       |apply list_lookup_insert_eq; by apply lookup_lt_Some in Hr
       |done].
    simpl. by rewrite list_insert_insert_eq, <- app_assoc.
Qed.

(** X13. A batch of events is delivered in order and ends where a handler
    raises. For a stream of the map whose connection is open and already
    accepted: the data events at the head of the batch queue their data
    on that connection in batch order; the response headers that follow
    and name [xpra] again raise [AttributeError] out of
    [quic_event_received]; and whatever the batch holds after them is
    never delivered: the protocol object is left as the data events left
    it. *)
Theorem batch_in_order_until_raise
        (w : WebSocketClient) (sid : Z) (r : nat) (o : connection)
        (chunks : list (bytes * bool)) (value : bytes) (text : str)
        (ended : bool) (rest : list H3Event) :
  _websockets w !! sid = Some r ->
  heap w !! r = Some o ->
  class_of o = ClientWebSocketConnection ->
  closed o = false ->
  accepted o = true ->
  write_buffer o = None ->
  decode value = Some text ->
  "xpra" ∈ split_comma text ->
  WebSocketClient_quic_event_received
    (map (fun d => DataReceived (fst d) sid (snd d)) chunks
       ++ HeadersReceived [("sec-websocket-protocol", value)] sid ended
       :: rest) w =
    (Raised AttributeError,
     mk_client
       (<[r := set_read_queue (read_queue o ++ map fst chunks) o]> (heap w))
       (_websockets w) (wire w)).
Proof.
  intros Hs Hr Hk Hc Ha Hwb Hdec Hin.
  rewrite quic_event_received_app.
  rewrite (data_batch_delivered chunks w sid r o Hs Hr Hc).
  cbn [WebSocketClient_quic_event_received]. unfold bind at 1.
  unfold WebSocketClient_http_event_received. unfold bind at 1, get at 1.
  cbn [_websockets]. rewrite Hs. unfold with_object. cbn [heap wire].
  rewrite list_lookup_insert_eq by by apply lookup_lt_Some in Hr.
  rewrite http_event_received_client by done.
  cbn [ClientWebSocketConnection_http_event_received headers_loop].
  rewrite String.eqb_refl, Hdec. cbv zeta.
  rewrite bool_decide_eq_true_2 by done. cbn [negb].
  destruct o as [k s a c rq wb rl]. simpl in *. subst k c a wb.
  unfold ClientWebSocketConnection_flush_writes. step_monad.
  by rewrite list_insert_insert_eq.
Qed.

End ProtocolProperties.

(** ** How the calls end *)

Section Outcomes.
Context `{Imports}.

Ltac step_monad :=
  unfold bind, ret, raise, block, get, modify, attr, assign, emit,
    state_after, result_of in *; simpl in *.

Lemma headers_loop_outcome (headers : list (bytes * bytes)) :
  forall f,
    result_of (headers_loop headers f) = Returned tt \/
    result_of (headers_loop headers f) = Raised AttributeError \/
    result_of (headers_loop headers f) = Raised UnicodeDecodeError.
Proof.
  induction headers as [|[header value] rest IH]; intros f; [by left|].
  cbn [headers_loop].
  destruct (String.eqb header "sec-websocket-protocol"); [|by apply IH].
  destruct (decode value) as [text|]; [|by right; right].
  cbv zeta. destruct (negb _).
  - pose proof (close_returns
                  (mk_frame (self f)
                     (calls f ++ [log_warn
                        (unsupported_websocket_subprotocols
                           (split_comma text))]))) as (Hret & _).
    destruct f as [o cs]. step_monad. by left.
  - destruct f as [o cs]. simpl.
    destruct (write_buffer o) as [q|] eqn:Hwb.
    + pose proof (flush_writes_sends
                    (mk_frame (set_accepted true o) cs) q Hwb) as Hf.
      step_monad. rewrite Hf. apply IH.
    + pose proof (flush_writes_retired
                    (mk_frame (set_accepted true o) cs) Hwb) as Hf.
      step_monad. rewrite Hf. by right; left.
Qed.

(** X16. What an event can do to its handler. The handler of a connection
    object never blocks. It returns for every event that is not a
    [HeadersReceived], and for every event at all on a plain
    [XpraQuicConnection]; on a client connection a [HeadersReceived] makes
    it return, or raise [AttributeError], or raise
    [UnicodeDecodeError], and nothing else. *)
Theorem event_handler_outcomes (event : H3Event) (f : frame) :
  result_of (http_event_received event f) = Returned tt \/
  (class_of (self f) = ClientWebSocketConnection /\
   (exists headers sid ended, event = HeadersReceived headers sid ended) /\
   (result_of (http_event_received event f) = Raised AttributeError \/
    result_of (http_event_received event f) = Raised UnicodeDecodeError)).
Proof.
  assert (Hbase : result_of (XpraQuicConnection_http_event_received event f)
                  = Returned tt).
  { destruct f as [[k sid a c rq wb r] cs].
    unfold XpraQuicConnection_http_event_received. step_monad.
    destruct c; [done|]. by destruct event. }
  unfold http_event_received. unfold bind at 1 2 3, attr at 1 2 3.
  destruct (class_of (self f)) eqn:Hk; [by left|].
  destruct event as [headers sid ended| | |];
    cbn [ClientWebSocketConnection_http_event_received]; try by left.
  destruct (headers_loop_outcome headers f) as [Hr|Hr]; [by left|].
  right. split; [done|]. split; [by eauto|done].
Qed.

End Outcomes.

(** ** The statements on examples *)

#[local] Existing Instance example_imports.


(** C2 as the spec words it fails: a response without [xpra] closes the
    connection, but nothing is raised; the handler returns, a later
    [write] returns the length of its buffer, a later [read] blocks. *)
Lemma unsupported_subprotocol_raises_nothing :
  let f0 := mk_frame (ClientWebSocketConnection_init 0) [] in
  let event := HeadersReceived
                 [(":status", "200"); ("sec-websocket-protocol", "foo,bar")]
                 0 false in
  let r := ClientWebSocketConnection_http_event_received event f0 in
  ("xpra" ∉ split_comma "foo,bar") /\
  closed (self (state_after r)) = true /\
  result_of r = Returned tt /\
  ~ raises (result_of r) /\
  result_of (ClientWebSocketConnection_write "x" (state_after r))
    = Returned 1%nat /\
  result_of (XpraQuicConnection_read 1 (state_after r)) = Blocked.
Proof.
  cbv zeta. split.
  - apply (bool_decide_eq_false _). reflexivity.
  - split; [reflexivity|]. split; [reflexivity|]. split.
    + intros [e He]. discriminate He.
    + split; reflexivity.
Qed.

Lemma subprotocol_check_witness :
  let f0 := mk_frame (ClientWebSocketConnection_init 0) [] in
  let r := ClientWebSocketConnection_http_event_received
             (HeadersReceived
                ([(":status", "200")]
                   ++ ("sec-websocket-protocol", "foo,bar") :: [])
                0 false) f0 in
  consistent (self f0) /\
  no_subprotocol_header [(":status", "200")] /\
  decode "foo,bar" = Some "foo,bar" /\
  result_of r = Returned tt /\
  closed (self (state_after r)) = true /\
  accepted (self (state_after r)) = false /\
  calls (state_after r) =
    [] ++ [log_warn (unsupported_websocket_subprotocols ["foo"; "bar"]);
           send_headers_call 0 [(":status", "1000")] true;
           transmit_call].
Proof.
  intros f0 r.
  assert (Hc : consistent (self f0)).
  { split; [reflexivity|]. split; intros Hx; discriminate Hx. }
  assert (Hpre : no_subprotocol_header [(":status", "200")])
    by (repeat constructor).
  assert (Hdec : decode "foo,bar" = Some "foo,bar") by reflexivity.
  pose proof (subprotocol_check f0 [(":status", "200")] [] "foo,bar" 0 false
                "foo,bar" Hc Hpre Hdec) as Hs.
  cbv zeta in Hs. change (bool_decide _) with false in Hs. cbv iota in Hs.
  destruct Hs as (Hret & Hclosed & Hacc & Hcalls).
  split; [exact Hc|]. split; [exact Hpre|]. split; [exact Hdec|].
  split; [exact Hret|]. split; [exact Hclosed|]. split; [exact Hacc|].
  exact Hcalls.
Defined.

Lemma none_backend_witness :
  let a := mk_attempt "salt" "alice" ":10" (Some "foo") in
  supplied_secret a = Some "foo" /\
  authenticate example_digest auth_none a = EXIT_NO_AUTHENTICATION.
Proof.
  intros a.
  assert (Hs : supplied_secret a = Some "foo") by reflexivity.
  destruct (none_backend example_digest a) as (_ & Hsome & _).
  split; [exact Hs|]. exact (proj1 (Hsome "foo" Hs)).
Defined.

(** C4 as the spec words it fails. A connection that queued a chunk and
    was then closed: [read] returns the chunk; the next [read] blocks. A
    client connection closed before it was accepted: [write] returns the
    length of its buffer and queues it. None of the three raises. *)
Lemma closed_connection_still_writes_and_reads :
  let f := run [op_http_event_received (DataReceived "late" 0 false);
                op_close]
               (mk_frame (XpraQuicConnection_init 0) []) in
  let g := run [op_close] (mk_frame (ClientWebSocketConnection_init 0) []) in
  closed (self f) = true /\
  result_of (XpraQuicConnection_read 1 f) = Returned "late" /\
  result_of (XpraQuicConnection_read 1
               (state_after (XpraQuicConnection_read 1 f))) = Blocked /\
  closed (self g) = true /\
  ClientWebSocketConnection_write "abc" g =
    (Returned 3%nat,
     mk_frame (set_write_buffer (Some ["abc"]) (self g)) (calls g)) /\
  ~ raises (result_of (XpraQuicConnection_read 1 f)) /\
  ~ raises (result_of (ClientWebSocketConnection_write "abc" g)).
Proof.
  cbv zeta. split; [reflexivity|]. split; [reflexivity|].
  split; [reflexivity|]. split; [reflexivity|]. split; [reflexivity|].
  split; intros [e He]; discriminate He.
Qed.

Lemma closed_write_read_witness :
  let f := run [op_http_event_received (DataReceived "late" 0 false);
                op_write "early";
                op_close]
               (mk_frame (ClientWebSocketConnection_init 0) []) in
  closed (self f) = true /\
  write_buffer (self f) = Some ["early"] /\
  XpraQuicConnection_read 1 f =
    (Returned "late", mk_frame (set_read_queue [] (self f)) (calls f)) /\
  ClientWebSocketConnection_write "abc" f =
    (Returned 3%nat,
     mk_frame (set_write_buffer (Some (["early"] ++ ["abc"])) (self f))
              (calls f)).
Proof.
  intros f.
  assert (Hc : closed (self f) = true) by reflexivity.
  assert (Hq : write_buffer (self f) = Some ["early"]) by reflexivity.
  destruct (closed_write_read f "abc" 1 Hc) as (Hr & Hw).
  split; [exact Hc|]. split; [exact Hq|].
  split; [exact Hr|exact (Hw ["early"] Hq)].
Defined.

(** C5 as the spec words it fails: a stream closed before it was accepted,
    and a stream closed after it was accepted, are both still keys of
    [_websockets] afterwards. *)
Lemma closed_stream_stays_in_map :
  let w1 := state_after
              (WebSocketClient_open "localhost" 14500 "/"
                 WebSocketClient_init) in
  let w2 := state_after (with_object 0 XpraQuicConnection_close w1) in
  let w3 := state_after
              (WebSocketClient_http_event_received
                 (HeadersReceived [("sec-websocket-protocol", "xpra")]
                    0 false) w1) in
  let w4 := state_after (with_object 0 XpraQuicConnection_close w3) in
  (closed <$> heap w2 !! 0%nat) = Some true /\
  (accepted <$> heap w2 !! 0%nat) = Some false /\
  _websockets w2 !! 0 = Some 0%nat /\
  (closed <$> heap w4 !! 0%nat) = Some true /\
  (accepted <$> heap w4 !! 0%nat) = Some true /\
  _websockets w4 !! 0 = Some 0%nat.
Proof. cbv zeta. repeat split; vm_compute; reflexivity. Qed.

Lemma close_sends_and_keeps_entry_witness :
  let w := state_after
             (WebSocketClient_open "localhost" 14500 "/"
                WebSocketClient_init) in
  let o := ClientWebSocketConnection_init 0 in
  let res := with_object 0 XpraQuicConnection_close w in
  heap w !! 0%nat = Some o /\
  closed o = false /\
  consistent o /\
  result_of res = Returned tt /\
  wire (state_after res) =
    wire w ++ [send_headers_call 0 [(":status", "1000")] true;
               transmit_call] /\
  _websockets (state_after res) = _websockets w.
Proof.
  intros w o res.
  assert (Hr : heap w !! 0%nat = Some o) by reflexivity.
  assert (Hopen : closed o = false) by reflexivity.
  assert (Hc : consistent o).
  { split; [reflexivity|]. split; intros Hx; discriminate Hx. }
  destruct (close_sends_and_keeps_entry w 0 o Hr Hopen (fun _ => Hc))
    as (Hret & Hwire & _ & Hmap).
  split; [exact Hr|]. split; [exact Hopen|]. split; [exact Hc|].
  split; [exact Hret|]. split; [exact Hwire|exact Hmap].
Defined.

Lemma unknown_stream_event_ignored_witness :
  let w := state_after
             (WebSocketClient_open "localhost" 14500 "/"
                WebSocketClient_init) in
  let event := DataReceived "x" 8 false in
  event_stream_id event = Some 8 /\
  _websockets w !! 8 = None /\
  exists warn,
    WebSocketClient_http_event_received event w =
      (Returned tt,
       mk_client (heap w) (_websockets w) (wire w ++ [log_warn warn])).
Proof.
  intros w event.
  assert (Hsid : event_stream_id event = Some 8) by reflexivity.
  assert (Hnone : _websockets w !! 8 = None) by reflexivity.
  split; [exact Hsid|]. split; [exact Hnone|].
  exact (unknown_stream_event_ignored w event 8 Hsid Hnone).
Defined.

Lemma self_signed_verify_modes_witness :
  let a := mk_attempt "salt" "alice" ":10" None in
  authenticate example_digest auth_none a = EXIT_OK /\
  tls_connect example_digest true verify_none self_signed auth_none a
    = EXIT_OK /\
  tls_connect example_digest true verify_required self_signed auth_none a
    = EXIT_SSL_CERTIFICATE_VERIFY_FAILURE.
Proof.
  intros a.
  assert (Hok : authenticate example_digest auth_none a = EXIT_OK)
    by reflexivity.
  destruct (self_signed_verify_modes example_digest true auth_none a)
    as [Hreq Hnone].
  split; [exact Hok|]. split; [exact (Hnone Hok)|exact Hreq].
Defined.

(** [read(-1)] and [read(2)] on a queue whose oldest chunk has five
    bytes. *)
Lemma read_ignores_n_witness :
  let f := mk_frame (set_read_queue ["hello"; "x"]
                       (XpraQuicConnection_init 0)) [] in
  read_queue (self f) = ["hello"; "x"] /\
  result_of (XpraQuicConnection_read (-1) f) = Returned "hello" /\
  XpraQuicConnection_read 2 f = XpraQuicConnection_read (-1) f.
Proof.
  intros f.
  assert (Hq : read_queue (self f) = ["hello"; "x"]) by reflexivity.
  destruct (read_ignores_n (-1) f "hello" ["x"] Hq) as [Hr Hall].
  split; [exact Hq|]. split; [by rewrite Hr|exact (Hall 2)].
Defined.

(** *** More statements on examples *)

Lemma identity_kept_flags_stay_set_witness :
  let f := mk_frame (set_closed true (set_accepted true
                       (ClientWebSocketConnection_init 4))) [] in
  let ops := [op_http_event_received
                (HeadersReceived [("sec-websocket-protocol", "foo")] 4 false);
              op_write "x"; op_read 1] in
  accepted (self f) = true /\ closed (self f) = true /\
  stream_id (self (run ops f)) = 4 /\
  accepted (self (run ops f)) = true /\
  closed (self (run ops f)) = true.
Proof.
  intros f ops.
  destruct (identity_kept_flags_stay_set f ops) as (_ & Hs & Ha & Hc).
  split; [reflexivity|]. split; [reflexivity|].
  split; [exact Hs|]. split; [exact (Ha eq_refl)|exact (Hc eq_refl)].
Defined.

Lemma closed_queue_only_shrinks_witness :
  let f := run [op_http_event_received (DataReceived "a" 0 false);
                op_http_event_received (DataReceived "b" 0 false);
                op_close]
               (mk_frame (XpraQuicConnection_init 0) []) in
  let ops := [op_http_event_received (DataReceived "c" 0 false);
              op_read 1;
              op_http_event_received (DataReceived "d" 0 true)] in
  closed (self f) = true /\
  read_queue (self f) = ["a"; "b"] /\
  read_queue (self (run ops f)) `suffix_of` ["a"; "b"].
Proof.
  intros f ops.
  assert (Hc : closed (self f) = true) by reflexivity.
  split; [exact Hc|]. split; [reflexivity|].
  exact (closed_queue_only_shrinks ops f Hc).
Defined.

Lemma data_received_then_read_witness :
  let f := mk_frame (set_read_queue ["old"]
                       (ClientWebSocketConnection_init 0)) [] in
  let chunks := [("one", 0, false); ("two", 8, false)] in
  closed (self f) = false /\
  read_all [1; 0; -5] (run (data_events chunks) f) =
    (["old"; "one"; "two"],
     mk_frame (set_read_queue [] (self f)) (calls f)).
Proof.
  intros f chunks.
  assert (Hc : closed (self f) = false) by reflexivity.
  assert (Hlen : length [1; 0; -5] =
                 (length (read_queue (self f)) + length chunks)%nat)
    by reflexivity.
  split; [exact Hc|].
  exact (proj2 (data_received_then_read f chunks [1; 0; -5] Hc Hlen)).
Defined.

Lemma second_acceptance_raises_witness :
  let accept := HeadersReceived [("sec-websocket-protocol", "xpra")]
                                0 false in
  let f := run [op_write "ab"; op_http_event_received accept]
               (mk_frame (ClientWebSocketConnection_init 0) []) in
  accepted (self f) = true /\
  write_buffer (self f) = None /\
  ClientWebSocketConnection_http_event_received
    (HeadersReceived ([] ++ ("sec-websocket-protocol", "xpra") :: [])
                     0 false) f =
    (Raised AttributeError, f).
Proof.
  intros accept f.
  assert (Ha : accepted (self f) = true) by reflexivity.
  assert (Hwb : write_buffer (self f) = None) by reflexivity.
  assert (Hpre : no_subprotocol_header []) by constructor.
  assert (Hdec : decode "xpra" = Some "xpra") by reflexivity.
  assert (Hin : "xpra" ∈ split_comma "xpra")
    by (apply (bool_decide_unpack _); reflexivity).
  split; [exact Ha|]. split; [exact Hwb|].
  exact (second_acceptance_raises f [] [] "xpra" 0 false "xpra"
           Ha Hwb Hpre Hdec Hin).
Defined.

Lemma headers_without_subprotocol_ignored_witness :
  let f := mk_frame (ClientWebSocketConnection_init 0) [] in
  let headers := [(":status", "200"); ("server", "xpra")] in
  no_subprotocol_header headers /\
  ClientWebSocketConnection_http_event_received
    (HeadersReceived headers 0 false) f = (Returned tt, f).
Proof.
  intros f headers.
  assert (Hn : no_subprotocol_header headers) by (repeat constructor).
  split; [exact Hn|].
  exact (headers_without_subprotocol_ignored f headers 0 false Hn).
Defined.

Lemma undecodable_subprotocol_raises_witness :
  let f := mk_frame (ClientWebSocketConnection_init 0) [] in
  let value := String (ascii_of_N 255) "xpra" in
  utf8_wellformed value = false /\
  ClientWebSocketConnection_http_event_received
    (HeadersReceived
       ([(":status", "200")] ++ ("sec-websocket-protocol", value) :: [])
       0 false) f =
    (Raised UnicodeDecodeError, f).
Proof.
  intros f value.
  assert (Hpre : no_subprotocol_header [(":status", "200")])
    by (repeat constructor).
  assert (Hbad : utf8_wellformed value = false) by reflexivity.
  split; [exact Hbad|].
  exact (undecodable_subprotocol_raises f [(":status", "200")] [] value
           0 false Hpre Hbad).
Defined.

Lemma sends_on_own_stream_only_witness :
  let accept := HeadersReceived [("sec-websocket-protocol", "xpra")]
                                8 false in
  let f := mk_frame (ClientWebSocketConnection_init 4)
                    [send_data_call 0 "other" false] in
  let ops := [op_write "ab"; op_http_event_received accept; op_close] in
  consistent (self f) /\
  exists emitted,
    calls (run ops f) = [send_data_call 0 "other" false] ++ emitted /\
    Forall (on_stream 4) emitted.
Proof.
  intros accept f ops.
  assert (Hc : consistent (self f)).
  { split; [reflexivity|]. split; intros Hx; discriminate Hx. }
  split; [exact Hc|].
  exact (sends_on_own_stream_only f ops (fun _ => Hc)).
Defined.

Lemma no_data_before_acceptance_witness :
  let ops := [op_write "ab";
              op_http_event_received
                (HeadersReceived [("sec-websocket-protocol", "foo")]
                                 0 false);
              op_write "cd"] in
  let f := run ops (mk_frame (ClientWebSocketConnection_init 0) []) in
  accepted (self f) = false /\
  exists emitted,
    calls f = [] ++ emitted /\
    Forall (fun c => is_send_data c = false) emitted.
Proof.
  intros ops f.
  assert (Ha : accepted (self f) = false) by reflexivity.
  split; [exact Ha|].
  exact (no_data_before_acceptance 0 [] ops Ha).
Defined.

Lemma send_close_code_then_close_silent_witness :
  let f := mk_frame (XpraQuicConnection_init 0) [] in
  let f1 := state_after (XpraQuicConnection_send_close 4000 "bye" f) in
  let f2 := state_after (XpraQuicConnection_close f1) in
  closed (self f) = false /\
  accepted (self f) = false /\
  closed (self f2) = true /\
  calls f2 = [] ++ [send_headers_call 0 [(":status", "4000")] true;
                    transmit_call].
Proof.
  intros f f1 f2.
  assert (Hopen : closed (self f) = false) by reflexivity.
  assert (Ha : accepted (self f) = false) by reflexivity.
  destruct (send_close_code_then_close_silent 4000 "bye" f Hopen Ha)
    as (_ & _ & Hclosed & _ & Hcalls).
  split; [exact Hopen|]. split; [exact Ha|].
  split; [exact Hclosed|exact Hcalls].
Defined.

Lemma registry_well_formed_witness :
  let ops := [w_open "localhost" 14500 "/";
              w_call 0 (op_write "hello");
              w_open "localhost" 14500 "/second";
              w_http_event_received
                (HeadersReceived [("sec-websocket-protocol", "xpra")]
                                 0 false);
              w_call 1 op_close] in
  _websockets (wrun ops WebSocketClient_init) !! 4 = Some 1%nat /\
  exists o,
    heap (wrun ops WebSocketClient_init) !! 1%nat = Some o /\
    class_of o = ClientWebSocketConnection /\
    stream_id o = 4 /\
    (accepted o = true <-> write_buffer o = None).
Proof.
  intros ops.
  assert (Hr : _websockets (wrun ops WebSocketClient_init) !! 4
               = Some 1%nat) by reflexivity.
  split; [exact Hr|].
  exact (registry_well_formed ops 4 1 Hr).
Defined.

(** Two streams; the response for the first is refused: the second is
    untouched. *)
Lemma event_leaves_other_streams_witness :
  let w := wrun [w_open "localhost" 14500 "/";
                 w_open "localhost" 14500 "/second"]
                WebSocketClient_init in
  let event := HeadersReceived [("sec-websocket-protocol", "foo")]
                               0 false in
  let w' := state_after (WebSocketClient_http_event_received event w) in
  _websockets w !! 0 = Some 0%nat /\
  (closed <$> heap w' !! 0%nat) = Some true /\
  _websockets w' = _websockets w /\
  heap w' !! 1%nat = heap w !! 1%nat.
Proof.
  intros w event w'.
  assert (Hother : forall sid,
             event_stream_id event = Some sid ->
             _websockets w !! sid <> Some 1%nat).
  { intros sid Hsid. injection Hsid as <-. discriminate. }
  split; [reflexivity|]. split; [reflexivity|].
  exact (event_leaves_other_streams w event 1 Hother).
Defined.

Lemma unrouted_batch_logged_witness :
  let w := state_after
             (WebSocketClient_open "localhost" 14500 "/"
                WebSocketClient_init) in
  let batch := [DataReceived "x" 8 false;
                DatagramReceived "y" 0;
                HeadersReceived [] 12 true] in
  Forall (unrouted w) batch /\
  WebSocketClient_quic_event_received batch w =
    (Returned tt,
     mk_client (heap w) (_websockets w)
       (wire w ++ [log_warn (unexpected_websocket_stream_id 8);
                   log_warn (unexpected_http_event_type
                               (DatagramReceived "y" 0));
                   log_warn (unexpected_websocket_stream_id 12)])).
Proof.
  intros w batch.
  assert (Hall : Forall (unrouted w) batch).
  { repeat constructor; reflexivity. }
  split; [exact Hall|].
  exact (unrouted_batch_logged batch w Hall).
Defined.

(** A stream is accepted, then one batch brings two chunks of data, the
    response once more, and a third chunk: the two chunks are queued in
    order, the batch raises, the third chunk is never queued. *)
Lemma batch_in_order_until_raise_witness :
  let accept := HeadersReceived [("sec-websocket-protocol", "xpra")]
                                0 false in
  let w := wrun [w_open "localhost" 14500 "/";
                 w_http_event_received accept]
                WebSocketClient_init in
  let res := WebSocketClient_quic_event_received
               (map (fun d => DataReceived (fst d) 0 (snd d))
                    [("one", false); ("two", false)]
                  ++ accept :: [DataReceived "three" 0 false]) w in
  _websockets w !! 0 = Some 0%nat /\
  (accepted <$> heap w !! 0%nat) = Some true /\
  result_of res = Raised AttributeError /\
  (read_queue <$> heap (state_after res) !! 0%nat) = Some ["one"; "two"].
Proof.
  intros accept w res.
  assert (Hs : _websockets w !! 0 = Some 0%nat) by reflexivity.
  assert (Hr : heap w !! 0%nat =
               Some (set_write_buffer None
                       (set_accepted true (ClientWebSocketConnection_init 0))))
    by reflexivity.
  assert (Hdec : decode "xpra" = Some "xpra") by reflexivity.
  assert (Hin : "xpra" ∈ split_comma "xpra")
    by (apply (bool_decide_unpack _); reflexivity).
  pose proof (batch_in_order_until_raise w 0 0 _
                [("one", false); ("two", false)] "xpra" "xpra" false
                [DataReceived "three" 0 false]
                Hs Hr eq_refl eq_refl eq_refl eq_refl Hdec Hin) as Hb.
  split; [exact Hs|]. split; [by rewrite Hr|].
  subst res. split.
  - exact (f_equal result_of Hb).
  - apply (f_equal (fun x => read_queue <$> heap (state_after x) !! 0%nat))
      in Hb.
    exact Hb.
Defined.

Lemma open_write_accept_witness :
  let w1 := state_after
              (WebSocketClient_open "localhost" 14500 "/"
                 WebSocketClient_init) in
  let w2 := wrun (map (fun buf => w_call 0 (op_write buf)) ["ab"; "c"])
                 w1 in
  let res := WebSocketClient_http_event_received
               (HeadersReceived
                  ([(":status", "200")]
                     ++ ("sec-websocket-protocol", "xpra") :: [])
                  0 false) w2 in
  result_of res = Returned tt /\
  wire (state_after res) =
    wire w1 ++ [send_data_call 0 "ab" false; send_data_call 0 "c" false;
                transmit_call].
Proof.
  intros w1 w2 res.
  assert (Hpre : no_subprotocol_header [(":status", "200")])
    by (repeat constructor).
  assert (Hpost : no_subprotocol_header []) by constructor.
  assert (Hdec : decode "xpra" = Some "xpra") by reflexivity.
  assert (Hin : "xpra" ∈ split_comma "xpra")
    by (apply (bool_decide_unpack _); reflexivity).
  destruct (open_write_accept WebSocketClient_init "localhost" 14500 "/"
              ["ab"; "c"] [(":status", "200")] [] "xpra" false "xpra"
              Hpre Hpost Hdec Hin) as (_ & Hret & Hwire & _).
  split; [exact Hret|exact Hwire].
Defined.
